(** * Pragati-Path: the submission validation and scoring pipeline

    A shallow embedding of [src/issue_validator.py] (class [CivicValidator])
    and the properties its specification states about it.

    Conventions of the embedding.

    - A Python [str] is a list of characters; a character is a code point
      below 256 (an [ascii]).  On that range Python's [\d] matches exactly
      the ten digits '0'..'9', [str.isspace] holds of the twelve code points
      listed in [isspace], and [str.lower] acts on 'A'..'Z' and on the
      Latin-1 capitals.
    - A call that may raise returns an [outcome]: [Returns v] or [Raises e].
      [try ... except Exception] is [try_except].
    - What the code reads from outside (the image decoder, the captioning
      client, the scoring service, [ast.literal_eval], [repr], the
      interpreter's limit on [int()] of long digit strings) is a variable of
      the section that uses it; every theorem holds for all of their
      behaviours.
    - [if not file] asks the upload object for its truth value, so an
      upload carries one ([truth]); werkzeug's [FileStorage], the object
      Flask passes, is true exactly when its filename is.
    - An exception carries its class name and its text; the text is
      abridged where the code only prints it.
    - The [print] calls inside a [try] or an [except] branch have no
      modelled effect.  The [print] that opens [get_florence_caption]
      stands before its [try] and writes a character outside ASCII: the
      write is modelled ([get_florence_caption_with_print]), and the
      definition [get_florence_caption] is the method from its second
      statement on.
    - The modules the methods import on the fly ([requests], [ast]) are
      taken to be installed. *)

From Stdlib Require Import List Ascii String ZArith NArith Lia Bool.
From Stdlib Require Import Strings.Byte.
From Stdlib Require Import DecimalString.
From Corelib Require Import PrimFloat.
Import ListNotations.

Set Implicit Arguments.
Set Warnings "-register-all,-inexact-float".

Local Open Scope list_scope.

(** ** Python strings *)

Definition str := list ascii.

(** A string literal. *)
Definition py (s : string) : str := list_ascii_of_string s.

(** [ord(c)] *)
Definition ord (c : ascii) : N := N_of_ascii c.

(** [chr(n)] for [n < 256] *)
Definition chr (n : N) : ascii := ascii_of_N n.

Definition newline : ascii := chr 10.

(** The characters [\d] matches. *)
Definition isdigit (c : ascii) : bool :=
  (48 <=? ord c)%N && (ord c <=? 57)%N.

(** [str.isspace] on one character: TAB, LF, VT, FF, CR, the four
    separators FS, GS, RS, US, SPACE, NEL and NBSP. *)
Definition isspace (c : ascii) : bool :=
  existsb (N.eqb (ord c)) [9; 10; 11; 12; 13; 28; 29; 30; 31; 32; 133; 160]%N.

(** [str.lower] on one character. *)
Definition lower_char (c : ascii) : ascii :=
  let n := ord c in
  if ((65 <=? n) && (n <=? 90) ||
      (192 <=? n) && (n <=? 222) && negb (n =? 215))%N
  then chr (n + 32) else c.

(** [s.lower()] *)
Definition lower (s : str) : str := map lower_char s.

(** [s.lstrip()], [s.rstrip()], [s.strip()] *)
Fixpoint lstrip (s : str) : str :=
  match s with
  | c :: r => if isspace c then lstrip r else s
  | [] => []
  end.

Definition rstrip (s : str) : str := rev (lstrip (rev s)).

Definition strip (s : str) : str := rstrip (lstrip s).

(** [s.split(sep)] for a one-character separator: never the empty list. *)
Fixpoint split (sep : ascii) (s : str) : list str :=
  match s with
  | [] => [[]]
  | c :: r =>
      if Ascii.eqb c sep then [] :: split sep r
      else match split sep r with
           | l :: ls => (c :: l) :: ls
           | [] => [[c]]
           end
  end.

(** [s.startswith(p)] *)
Fixpoint startswith (p s : str) : bool :=
  match p, s with
  | [], _ => true
  | _ :: _, [] => false
  | a :: p', b :: s' => Ascii.eqb a b && startswith p' s'
  end.

(** [s.endswith(p)] *)
Definition endswith (p s : str) : bool := startswith (rev p) (rev s).

(** [p in s] *)
Fixpoint contains (p s : str) : bool :=
  startswith p s ||
  match s with
  | [] => false
  | _ :: s' => contains p s'
  end.

(** ** Exceptions *)

(** An exception: its class name and [str(e)]. *)
Record exn : Type := Exception { exn_class : string; exn_str : str }.

Inductive outcome (A : Type) : Type :=
| Returns (a : A)
| Raises (e : exn).

Arguments Returns {A} a.
Arguments Raises {A} e.

Definition bind {A B : Type} (m : outcome A) (k : A -> outcome B) : outcome B :=
  match m with
  | Returns a => k a
  | Raises e => Raises e
  end.

(** [try: body  except Exception as e: handler e] *)
Definition try_except {A : Type} (body : outcome A) (handler : exn -> outcome A)
  : outcome A :=
  match body with
  | Returns a => Returns a
  | Raises e => handler e
  end.

Declare Scope py_scope.
Delimit Scope py_scope with py_m.
Notation "x <- m ;; k" := (bind m (fun x => k))
  (at level 61, m at next level, right associativity) : py_scope.
Local Open Scope py_scope.

(** ** The score parser: [re.findall], [int], the format [03d] *)

(** [re.findall(r'\d+', s)]: the scan keeps the digits of the match in
    progress in [run], most recent first, and emits the match when a
    character that is no digit, or the end of the string, closes it. *)
Definition emit (run : str) : list str :=
  match run with
  | [] => []
  | _ :: _ => [rev run]
  end.

Fixpoint scan_digits (run : str) (s : str) : list str :=
  match s with
  | [] => emit run
  | c :: r =>
      if isdigit c then scan_digits (c :: run) r
      else emit run ++ scan_digits [] r
  end.

Definition re_findall_digits (s : str) : list str := scan_digits [] s.

Definition digit_value (c : ascii) : N := (ord c - 48)%N.

(** The number a string of digits denotes. *)
Definition int_of_digits (d : str) : N :=
  fold_left (fun acc c => (10 * acc + digit_value c)%N) d 0%N.

Definition ValueError_int_limit : exn :=
  Exception "ValueError"
    (py "Exceeds the limit for integer string conversion").

(** [s.zfill]-style padding used by the format. *)
Definition zero_pad (width : nat) (d : str) : str :=
  repeat "0"%char (width - List.length d) ++ d.

(** [f"{val:03d}"] *)
Definition format_03d (val : Z) : str :=
  let digits := py (NilZero.string_of_uint (N.to_uint (Z.abs_N val))) in
  if (val <? 0)%Z then "-"%char :: zero_pad 2 digits
  else zero_pad 3 digits.

Section Interpreter.

(** [sys.get_int_max_str_digits()]: [int()] refuses a string of more
    digits than this; 0 means no limit (CPython's default is 4300, and
    an interpreter without the limit behaves as 0). *)
Variable max_str_digits : nat.

(** [int()] looks at the limit only for strings of more than 640 digits. *)
Definition int_refuses (d : str) : bool :=
  (640 <? List.length d)%nat &&
  (0 <? max_str_digits)%nat && (max_str_digits <? List.length d)%nat.

(** [int(d)] for [d] a match of [\d+]. *)
Definition py_int (d : str) : outcome Z :=
  if int_refuses d then Raises ValueError_int_limit
  else Returns (Z.of_N (int_of_digits d)).

(** [val = max(0, min(100, int(numbers[0]))); return f"{val:03d}"] *)
Definition clamp_format (number : str) : outcome str :=
  n <- py_int number ;;
  let val := Z.max 0 (Z.min 100 n) in
  Returns (format_03d val).

(** The first loop of [_strict3score]: [Returns (Some v)] when the loop
    returns [v] from the function, [Returns None] when it runs to its
    end. *)
Fixpoint score_line_loop (lines : list str) : outcome (option str) :=
  match lines with
  | [] => Returns None
  | line :: rest =>
      if contains (py "score") (lower line) then
        let numbers := re_findall_digits line in
        match numbers with
        | number :: _ => v <- clamp_format number ;; Returns (Some v)
        | [] => score_line_loop rest
        end
      else score_line_loop rest
  end.

(** The second loop: any line with a number. *)
Fixpoint any_line_loop (lines : list str) : outcome (option str) :=
  match lines with
  | [] => Returns None
  | line :: rest =>
      let numbers := re_findall_digits line in
      match numbers with
      | number :: _ => v <- clamp_format number ;; Returns (Some v)
      | [] => any_line_loop rest
      end
  end.

Definition _strict3score (text : str) : outcome str :=
  let lines := split newline (strip text) in
  r1 <- score_line_loop lines ;;
  match r1 with
  | Some v => Returns v
  | None =>
      r2 <- any_line_loop lines ;;
      match r2 with
      | Some v => Returns v
      | None => Returns (py "000")
      end
  end.

End Interpreter.


(** ** Python values

    The values a JSON document or a Python literal denotes.  A [PyDict]
    lists its items in insertion order. *)

Inductive pyval : Type :=
| PyNone
| PyBool (b : bool)
| PyInt (z : Z)
| PyFloat (f : float)
| PyStr (s : str)
| PyList (elems : list pyval)
| PyTuple (elems : list pyval)
| PySet (elems : list pyval)
| PyDict (items : list (pyval * pyval)).

Definition nonempty {A : Type} (l : list A) : bool :=
  match l with
  | [] => false
  | _ :: _ => true
  end.

(** [bool(v)] *)
Definition truthy (v : pyval) : bool :=
  match v with
  | PyNone => false
  | PyBool b => b
  | PyInt z => negb (z =? 0)%Z
  | PyFloat f => negb (PrimFloat.eqb f 0%float)
  | PyStr s => nonempty s
  | PyList l | PyTuple l | PySet l => nonempty l
  | PyDict items => nonempty items
  end.

Fixpoint str_eqb (a b : str) : bool :=
  match a, b with
  | [], [] => true
  | x :: a', y :: b' => Ascii.eqb x y && str_eqb a' b'
  | _, _ => false
  end.

Definition KeyError (key : str) : exn := Exception "KeyError" key.
Definition IndexError : exn := Exception "IndexError" (py "index out of range").
Definition TypeError (what : string) : exn := Exception "TypeError" (py what).
Definition AttributeError (what : string) : exn :=
  Exception "AttributeError" (py what).

(** A dict key equal to the string [k]. *)
Definition key_is_str (k : str) (key : pyval) : bool :=
  match key with
  | PyStr s => str_eqb s k
  | _ => false
  end.

(** A dict key equal to the integer 0: [0], [False] and [0.0] are one key. *)
Definition key_is_zero (key : pyval) : bool :=
  match key with
  | PyInt z => (z =? 0)%Z
  | PyBool b => negb b
  | PyFloat f => PrimFloat.eqb f 0%float
  | _ => false
  end.

Definition dict_lookup (is_key : pyval -> bool) (items : list (pyval * pyval))
  : option pyval :=
  option_map snd (find (fun kv => is_key (fst kv)) items).

(** [v[k]] for a string [k] *)
Definition subscript_key (v : pyval) (k : str) : outcome pyval :=
  match v with
  | PyDict items =>
      match dict_lookup (key_is_str k) items with
      | Some x => Returns x
      | None => Raises (KeyError k)
      end
  | PyStr _ | PyList _ | PyTuple _ => Raises (TypeError "indices must be integers")
  | _ => Raises (TypeError "object is not subscriptable")
  end.

(** [v[0]] *)
Definition subscript_0 (v : pyval) : outcome pyval :=
  match v with
  | PyList l | PyTuple l =>
      match l with
      | x :: _ => Returns x
      | [] => Raises IndexError
      end
  | PyStr s =>
      match s with
      | c :: _ => Returns (PyStr [c])
      | [] => Raises IndexError
      end
  | PyDict items =>
      match dict_lookup key_is_zero items with
      | Some x => Returns x
      | None => Raises (KeyError (py "0"))
      end
  | _ => Raises (TypeError "object is not subscriptable")
  end.

(** ** Computations with a state

    A method that acts on something outside itself (the upload's read
    cursor, the network) is a function of the state before to an outcome
    and the state after.  What a call did before it raised stays done. *)

Definition M (S A : Type) : Type := S -> outcome A * S.

Definition ret {S A : Type} (a : A) : M S A := fun s => (Returns a, s).

Definition raise {S A : Type} (e : exn) : M S A := fun s => (Raises e, s).

Definition lift {S A : Type} (r : outcome A) : M S A := fun s => (r, s).

Definition bindM {S A B : Type} (m : M S A) (k : A -> M S B) : M S B :=
  fun s =>
    match m s with
    | (Returns a, s') => k a s'
    | (Raises e, s') => (Raises e, s')
    end.

Definition try_exceptM {S A : Type} (body : M S A) (handler : exn -> M S A)
  : M S A :=
  fun s =>
    match body s with
    | (Returns a, s') => (Returns a, s')
    | (Raises e, s') => handler e s'
    end.

Notation "x <~ m ;; k" := (bindM m (fun x => k))
  (at level 61, m at next level, right associativity) : py_scope.

(** ** The scoring prompt

    The f-string of [get_civic_score_strict3], cut at its double quotes.
    The arrow of the two strictness rules (U+2192) lies outside the
    character range of the embedding and stands here as its three UTF-8
    bytes; the prompt is only handed to the scoring service. *)

Definition dquote : ascii := chr 34.

Definition quoted (s : str) : str := dquote :: s ++ [dquote].

Definition prompt_0 : string :=
  "You are a civic issue validator. 
Your task is to strictly rate the civic relevance of the report (0-100).
Evaluate BOTH the AI-generated image caption and the user-provided description. 
Check if they are consistent with each other and clearly describe a civic infrastructure or public issue.

IMAGE CAPTION: ".

Definition prompt_1 : string :=
  "
USER DESCRIPTION: ".

Definition prompt_2 : string :=
  "

SCORING RULES:
- HIGH RELEVANCE (70-100): Directly related to civic/public issues such as 
road damage, potholes, waterlogging, sewage/drainage problems, street lighting, 
garbage/waste management, traffic signals, broken sidewalks, public transport, 
government facilities, electricity/power supply, or community infrastructure.
Both caption and description should clearly align on a civic issue.
- MEDIUM RELEVANCE (40-69): Vague or partially relevant civic issues. 
Example: Caption shows a road but description is unclear; description mentions 
".

Definition prompt_3 : string :=
  " but not specific; mismatched caption/description but still 
possibly civic-related. Needs clarification.
- LOW RELEVANCE (0-39): Not related to civic/public issues. Includes:
personal complaints, private property, selfies, pets, family photos, 
festivals, shops/ads, or anything unrelated to infrastructure/public utilities.
Also applies when caption and description contradict each other 
(e.g., caption about nature but description about electricity).
STRICTNESS RULES:
- If description is too short, vague, or generic (e.g., ".

Definition prompt_4 : string :=
  ", ".

Definition prompt_5 : string :=
  ") → score low.
- If caption and description do not match → score low.
- Do NOT assume relevance if it's unclear. Prefer lowering score.

Respond EXACTLY in this format:
<number>

Where <number> is an integer from 0 to 100, zero-padded to 3 digits (e.g., 007, 085).".

Definition prompt_text (caption description : str) : str :=
  py prompt_0
  ++ quoted caption
  ++ py prompt_1
  ++ quoted description
  ++ py prompt_2
  ++ quoted (py "problem in colony")
  ++ py prompt_3
  ++ quoted (py "please fix this")
  ++ py prompt_4
  ++ quoted (py "bad condition")
  ++ py prompt_5.

(** ** The scoring service *)

(** The POST request: URL, the two headers, and the JSON body. *)
Record request : Type := {
  url : str;
  authorization : str;
  content_type : str;
  model : str;
  messages : list (str * str);   (* role, content *)
  temperature : float
}.

(** The response object: [status_code] and what [response.json()] does. *)
Record response : Type := {
  status_code : Z;
  json : outcome pyval
}.

(** The requests sent so far, oldest first. *)
Definition network : Type := list request.

(** [f"{self.groq_api_key}"]: the key, or the text [None]. *)
Definition format_key (groq_api_key : option str) : str :=
  match groq_api_key with
  | Some k => k
  | None => py "None"
  end.

Section Scorer.

Variable max_str_digits : nat.

(** The scoring service as [requests.post] sees it: a response, or an
    exception of the transport. *)
Variable requests_post : request -> outcome response.

Variable groq_api_key : option str.

Definition post (req : request) : M network response :=
  fun sent => (requests_post req, sent ++ [req]).

(** [self._strict3score(text)] for whatever value [text] is: only a
    [str] has [strip]. *)
Definition call_strict3score (text : pyval) : outcome str :=
  match text with
  | PyStr s => _strict3score max_str_digits s
  | _ => Raises (AttributeError "object has no attribute 'strip'")
  end.

(** [response.json()["choices"][0]["message"]["content"]] *)
Definition reply_content (r : response) : outcome pyval :=
  body <- json r ;;
  choices <- subscript_key body (py "choices") ;;
  choice <- subscript_0 choices ;;
  message <- subscript_key choice (py "message") ;;
  subscript_key message (py "content").

(** The URL, [headers] and [data] of the one request. *)
Definition score_request (caption description : str) : request :=
  {| url := py "https://api.groq.com/openai/v1/chat/completions";
     authorization := py "Bearer " ++ format_key groq_api_key;
     content_type := py "application/json";
     model := py "openai/gpt-oss-20b";
     messages := [(py "system", py "You are a helpful assistant.");
                  (py "user", prompt_text caption description)];
     temperature := 0.1%float |}.

Definition get_civic_score_strict3 (caption description : str)
  : M network str :=
  returned <~
    try_exceptM
      (response <~ post (score_request caption description) ;;
       if (status_code response =? 200)%Z then
         text <~ lift (reply_content response) ;;
         score <~ lift (call_strict3score text) ;;
         ret (Some score)
       else ret None)
      (fun e => ret None) ;;
  match returned with
  | Some score => ret score
  | None => ret (py "000")   (* fallback *)
  end.

End Scorer.

(** ** The caption requester *)

Section Caption.

(** [repr(v)] of a value that is no string. *)
Variable repr : pyval -> str.

(** [ast.literal_eval(text)]: the value of the literal, or the exception
    raised on text that is no literal. *)
Variable literal_eval : str -> outcome pyval.

(** [str(v)] *)
Definition py_str (v : pyval) : str :=
  match v with
  | PyStr s => s
  | _ => repr v
  end.

Definition no_caption : str := py "No caption generated".

(** The first statement of [_extract_caption]: the text of the reply
    before the mapping rule. *)
Definition caption_text (result : pyval) : str :=
  match result with
  | PyList (first :: _) | PyTuple (first :: _) =>
      if truthy first then py_str first else no_caption
  | _ =>
      if truthy result then py_str result else no_caption
  end.

Definition _extract_caption (result : pyval) : outcome pyval :=
  try_except
    (let caption := caption_text result in
     if startswith (py "{") caption && endswith (py "}") caption then
       try_except
         (caption_dict <- literal_eval caption ;;
          match caption_dict with
          | PyDict items => subscript_0 (PyList (map snd items))
          | _ => Returns (PyStr caption)
          end)
         (fun _ => Returns (PyStr caption))
     else Returns (PyStr caption))
    (fun _ => Returns (PyStr (py "Caption extraction failed"))).

(** [self.florence_client]: [None], or a client whose [predict] call on
    an image path returns the service's reply or raises. *)
Variable florence_client : option (str -> outcome pyval).

(** [os.path.exists] *)
Variable path_exists : str -> bool.

(** [get_florence_caption] from its second statement on: what follows
    the [print] of its first line. *)
Definition get_florence_caption (image_path : str) : outcome pyval :=
  match florence_client with
  | None => Returns (PyStr (py "Caption generation unavailable"))
  | Some predict =>
      if negb (path_exists image_path)
      then Returns (PyStr (py "Image file not found"))
      else
        try_except
          (result <- predict image_path ;;
           _extract_caption result)
          (fun e =>
             Returns (PyStr (py "Caption generation failed: " ++ exn_str e)))
  end.

End Caption.

(** ** The image gate *)

(** [s.rsplit(sep, 1)]: cut at the last separator, if there is one. *)
Fixpoint partition (sep : ascii) (s : str) : option (str * str) :=
  match s with
  | [] => None
  | c :: r =>
      if Ascii.eqb c sep then Some ([], r)
      else match partition sep r with
           | Some (a, b) => Some (c :: a, b)
           | None => None
           end
  end.

Definition rsplit1 (sep : ascii) (s : str) : list str :=
  match partition sep (rev s) with
  | Some (tail, head) => [rev head; rev tail]
  | None => [s]
  end.

(** [l[1]] *)
Definition item_1 {A : Type} (l : list A) : outcome A :=
  match l with
  | _ :: x :: _ => Returns x
  | _ => Raises IndexError
  end.

Definition ALLOWED_EXTENSIONS : list str :=
  [py "png"; py "jpg"; py "jpeg"; py "gif"; py "webp"].

(** [x in ALLOWED_EXTENSIONS] *)
Definition in_set (x : str) (set : list str) : bool := existsb (str_eqb x) set.

(** [allowed_file(filename)]; [filename] is [None] or a string. *)
Definition allowed_file (filename : option str) : outcome bool :=
  match filename with
  | None => Returns false
  | Some name =>
      if negb (nonempty name) then Returns false
      else if contains (py ".") name then
        ext <- item_1 (rsplit1 "."%char name) ;;
        Returns (in_set (lower ext) ALLOWED_EXTENSIONS)
      else Returns false
  end.

(** An upload object: its truth value ([bool(file)]), its declared
    filename and its bytes. *)
Record upload : Type := {
  truth : bool;
  filename : option str;
  content : list byte
}.

(** The upload objects Flask hands over: werkzeug's [FileStorage] is true
    exactly when its filename is. *)
Definition FileStorage (name : option str) (data : list byte) : upload :=
  {| truth := match name with Some n => nonempty n | None => false end;
     filename := name;
     content := data |}.

(** An upload object with no truth value of its own is true. *)
Definition plain_upload (name : option str) (data : list byte) : upload :=
  {| truth := true; filename := name; content := data |}.

(** What happened to the stream: the seeks, and the steps of the decoder
    with the position of the cursor each started from. *)
Inductive io_event : Type :=
| Seek (pos : nat)
| Open (at_pos : nat)
| Verify (at_pos : nat).

(** The stream of the upload: its read cursor and the steps so far, oldest
    first. *)
Record stream : Type := {
  cursor : nat;
  events : list io_event
}.

(** A decoded image: [img.size] is (width, height). *)
Record image : Type := { size : Z * Z }.

Section ImageGate.

(** [Image.open(file)] on the bytes with the cursor at a position: the
    image or the exception, and where it leaves the cursor. *)
Variable Image_open : list byte -> nat -> outcome image * nat.

(** [img.verify()], likewise. *)
Variable Image_verify : image -> list byte -> nat -> outcome unit * nat.

Definition seek (pos : nat) : M stream unit :=
  fun st => (Returns tt, {| cursor := pos; events := events st ++ [Seek pos] |}).

Definition open (u : upload) : M stream image :=
  fun st =>
    let (r, pos) := Image_open (content u) (cursor st) in
    (r, {| cursor := pos; events := events st ++ [Open (cursor st)] |}).

Definition verify (img : image) (u : upload) : M stream unit :=
  fun st =>
    let (r, pos) := Image_verify img (content u) (cursor st) in
    (r, {| cursor := pos; events := events st ++ [Verify (cursor st)] |}).

(** [bool(file)]; [file] is [None] or an upload object. *)
Definition file_truth (file : option upload) : bool :=
  match file with
  | None => false
  | Some u => truth u
  end.

(** [file.filename] *)
Definition file_filename (file : option upload) : outcome (option str) :=
  match file with
  | None => Raises (AttributeError "'NoneType' object has no attribute 'filename'")
  | Some u => Returns (filename u)
  end.

Definition validate_image_file (file : option upload)
  : M stream (bool * str) :=
  try_exceptM
    (if negb (file_truth file) then ret (false, py "No file provided")
     else
       name <~ lift (file_filename file) ;;
       allowed <~ lift (allowed_file name) ;;
       if negb allowed then ret (false, py "Invalid file type.")
       else
         match file with
         | None => raise (AttributeError "'NoneType' object has no attribute 'seek'")
         | Some u =>
             _ <~ seek 0 ;;
             img <~ open u ;;
             _ <~ verify img u ;;
             _ <~ seek 0 ;;
             img <~ open u ;;
             let (width, height) := size img in
             _ <~ seek 0 ;;
             if (width <? 100)%Z || (height <? 100)%Z
             then ret (false, py "Image too small.")
             else if (width >? 4000)%Z || (height >? 4000)%Z
             then ret (false, py "Image too large.")
             else ret (true, py "Valid image")
         end)
    (fun e => ret (false, py "Invalid image file: " ++ exn_str e)).

End ImageGate.

(** ** The vocabulary of the specification *)

(** A ScoreCode: exactly three ASCII digits that read as an integer of
    0 to 100. *)
Definition is_score_code (s : str) : bool :=
  (List.length s =? 3)%nat && forallb isdigit s && (int_of_digits s <=? 100)%N.

Definition has_digit (line : str) : bool := existsb isdigit line.

(** The line contains "score", whatever the case of its letters. *)
Definition mentions_score (line : str) : bool :=
  contains (py "score") (lower line).

Fixpoint take_digits (s : str) : str :=
  match s with
  | c :: r => if isdigit c then c :: take_digits r else []
  | [] => []
  end.

Fixpoint drop_nondigits (s : str) : str :=
  match s with
  | c :: r => if isdigit c then s else drop_nondigits r
  | [] => []
  end.

(** The first run of decimal digits of a line. *)
Definition first_digit_run (line : str) : str :=
  take_digits (drop_nondigits line).

(** Clamp to [0, 100] and zero-pad to three digits. *)
Definition score_code_of (run : str) : str :=
  format_03d (Z.max 0 (Z.min 100 (Z.of_N (int_of_digits run)))).

(** The lines of a reply, in reply order. *)
Definition lines_of (text : str) : list str := split newline text.

(** The strict parse as the specification words it.  The first pass looks
    at the first line that contains "score" and at no other; the second
    pass runs only if no line contains "score"; a reply in which the passes
    find no digits gives "000". *)
Definition strict_parse (text : str) : str :=
  let lines := lines_of text in
  match find mentions_score lines with
  | Some line =>
      if has_digit line then score_code_of (first_digit_run line)
      else py "000"
  | None =>
      match find has_digit lines with
      | Some line => score_code_of (first_digit_run line)
      | None => py "000"
      end
  end.

Definition score_and_digit (line : str) : bool :=
  mentions_score line && has_digit line.

(** The line whose number the passes select: the first line that contains
    both "score" and a digit, else the first line that contains a digit. *)
Definition selected_line (text : str) : option str :=
  let lines := lines_of text in
  match find score_and_digit lines with
  | Some line => Some line
  | None => find has_digit lines
  end.

(** The strict parse with the first pass looking for the first line that
    contains "score" and a digit. *)
Definition strict_parse_amended (text : str) : str :=
  match selected_line text with
  | Some line => score_code_of (first_digit_run line)
  | None => py "000"
  end.

(** [int()] converts the run: there is no limit, or the run is within it. *)
Definition int_accepts (max_str_digits : nat) (run : str) : bool :=
  (List.length run <=? 640)%nat ||
  (max_str_digits =? 0)%nat || (List.length run <=? max_str_digits)%nat.

(** The first line, in order, a per-line reading answers on. *)
Fixpoint first_some {A B : Type} (g : A -> option B) (l : list A) : option B :=
  match l with
  | [] => None
  | x :: r =>
      match g x with
      | Some b => Some b
      | None => first_some g r
      end
  end.

(** A predicate on lines and the run it selects, as a per-line reading. *)
Definition run_if (p : str -> bool) (line : str) : option str :=
  if p line then Some (first_digit_run line) else None.

(** Apply [h] to the last element of a list. *)
Fixpoint map_last {A : Type} (h : A -> A) (l : list A) : list A :=
  match l with
  | [] => []
  | [x] => [h x]
  | x :: r => x :: map_last h r
  end.

(** [int()] converts the number the passes select in the reply. *)
Definition int_accepts_reply (max_str_digits : nat) (text : str) : bool :=
  match selected_line text with
  | Some line => int_accepts max_str_digits (first_digit_run line)
  | None => true
  end.

(** The request failed in transport, or the status is not 200. *)
Definition service_failed (r : outcome response) : bool :=
  match r with
  | Raises _ => true
  | Returns resp => negb (status_code resp =? 200)%Z
  end.

(** Replies of the examples. *)
Definition nl : string := String newline EmptyString.

Definition reply_two_score_lines : str :=
  py ("score: none" ++ nl ++ "7" ++ nl ++ "score 42")%string.

Definition reply_long_number : str := py "score " ++ repeat "9"%char 4301.

Definition reply_number_before_score : str :=
  py ("7 items" ++ nl ++ "score: n/a")%string.

(** ** The image gate in the words of the specification *)

Definition has_dot (name : str) : bool := existsb (Ascii.eqb "."%char) name.

Fixpoint take_until (sep : ascii) (s : str) : str :=
  match s with
  | c :: r => if Ascii.eqb c sep then [] else c :: take_until sep r
  | [] => []
  end.

(** The extension of a filename: what follows its last dot. *)
Definition extension (name : str) : str := rev (take_until "."%char (rev name)).

(** The filename contains a dot and its extension, in any case of the
    letters, is one of the allowed ones. *)
Definition extension_allowed (filename : option str) : bool :=
  match filename with
  | Some name => has_dot name && in_set (lower (extension name)) ALLOWED_EXTENSIONS
  | None => false
  end.

(** [not file], the test of the first rule in the code: the upload is
    [None], or it is an upload object that is false. *)
Definition upload_is_false (file : option upload) : bool :=
  negb (file_truth file).

Definition dimensions_verdict (width height : Z) : bool * str :=
  if (width <? 100)%Z || (height <? 100)%Z then (false, py "Image too small.")
  else if (4000 <? width)%Z || (4000 <? height)%Z
  then (false, py "Image too large.")
  else (true, py "Valid image").

Section GateRules.

Variable Image_open : list byte -> nat -> outcome image * nat.
Variable Image_verify : image -> list byte -> nat -> outcome unit * nat.

(** The inspection of the content: the integrity check (open, verify) and
    the read of the dimensions (open again), each from the start of the
    content; the size, or the error of the first step that fails. *)
Definition inspect (data : list byte) : outcome (Z * Z) :=
  let (opened, pos) := Image_open data 0 in
  img <- opened ;;
  _ <- fst (Image_verify img data pos) ;;
  img' <- fst (Image_open data 0) ;;
  Returns (size img').

(** The six rules, in order; the first is the test [not file] of the
    code. *)
Definition image_gate_rules (file : option upload) : bool * str :=
  if upload_is_false file then (false, py "No file provided")
  else
    match file with
    | None => (false, py "No file provided")
    | Some u =>
        if negb (extension_allowed (filename u))
        then (false, py "Invalid file type.")
        else
          match inspect (content u) with
          | Raises e => (false, py "Invalid image file: " ++ exn_str e)
          | Returns (width, height) => dimensions_verdict width height
          end
    end.

End GateRules.

(** The steps of a complete inspection: every step of the decoder that
    opens the content starts from position 0, and the last seek leaves the
    cursor there. *)
Definition inspection_events (after_open : nat) : list io_event :=
  [Seek 0; Open 0; Verify after_open; Seek 0; Open 0; Seek 0].

(** The placeholder captions of the caption requester. *)
Definition is_placeholder (v : pyval) : bool :=
  match v with
  | PyStr s =>
      in_set s [py "Caption generation unavailable"; py "Image file not found";
                py "No caption generated"; py "Caption extraction failed"]
      || startswith (py "Caption generation failed: ") s
  | _ => false
  end.

Definition is_str (v : pyval) : bool :=
  match v with
  | PyStr _ => true
  | _ => false
  end.

(** ** Stand-ins for the world outside, for the examples *)

(** [ast.literal_eval] on the texts of the examples, with the values
    Python gives them; any other text stands for text that is no literal. *)
Definition literal_eval_sample (text : str) : outcome pyval :=
  if str_eqb text (py "{'caption': 'Pothole on street'}")
  then Returns (PyDict [(PyStr (py "caption"), PyStr (py "Pothole on street"))])
  else if str_eqb text (py "{'caption': ''}")
  then Returns (PyDict [(PyStr (py "caption"), PyStr [])])
  else if str_eqb text (py "{'caption': 5}")
  then Returns (PyDict [(PyStr (py "caption"), PyInt 5)])
  else if str_eqb text (py "{}")
  then Returns (PyDict [])
  else if str_eqb text (py "{1, 2}")
  then Returns (PySet [PyInt 1; PyInt 2])
  else Raises (Exception "ValueError" (py "malformed node or string")).

(** [repr] of the constants; the examples call it on nothing else. *)
Definition repr_sample (v : pyval) : str :=
  match v with
  | PyNone => py "None"
  | PyBool true => py "True"
  | PyBool false => py "False"
  | _ => py "<value>"
  end.

(** A captioning client that answers every image with the same reply. *)
Definition client_replying (reply : pyval) : option (str -> outcome pyval) :=
  Some (fun _ => Returns reply).

(** A stand-in for the decoder.  An image is the byte 'I' followed by its
    width and its height in tens of pixels.  [Image.open] reads up to 16
    bytes from the cursor, as Pillow does to identify a format, and
    [verify] reads on to the end of the content. *)
Definition sample_open (data : list byte) (pos : nat) : outcome image * nat :=
  let after := Nat.min (pos + 16) (List.length data) in
  match skipn pos data with
  | x49 :: w :: h :: _ =>
      (Returns {| size := (10 * Z.of_N (Byte.to_N w),
                           10 * Z.of_N (Byte.to_N h))%Z |}, after)
  | _ =>
      (Raises (Exception "UnidentifiedImageError"
                 (py "cannot identify image file")), after)
  end.

Definition sample_verify (img : image) (data : list byte) (pos : nat)
  : outcome unit * nat :=
  (Returns tt, List.length data).

(** A 500 x 500 image, a 50 x 50 image and text that is no image. *)
Definition image_500 : list byte := [x49; x32; x32; x00; x00].
Definition image_50 : list byte := [x49; x05; x05; x00; x00].
Definition not_an_image : list byte := [x68; x65; x6c; x6c; x6f].

Definition fresh_stream : stream := {| cursor := 0; events := [] |}.

(** ** Further vocabulary of the statements *)

(** The caption the mapping rule leaves: the first value of a mapping
    with an item, else the text. *)
Definition mapping_rule (literal : outcome pyval) (caption : str) : pyval :=
  match literal with
  | Returns (PyDict ((_, value) :: _)) => value
  | _ => PyStr caption
  end.

Definition in_braces (caption : str) : bool :=
  startswith (py "{") caption && endswith (py "}") caption.

(** [file.filename], when there is an upload object. *)
Definition declared_name (file : option upload) : option str :=
  match file with
  | Some u => filename u
  | None => None
  end.

(** The gate gets as far as the content: rules 1 and 2 let the upload by. *)
Definition reaches_content (file : option upload) : bool :=
  negb (upload_is_false file) && extension_allowed (declared_name file).

(** The scoring path after the response has arrived. *)
Definition score_of_response (max_digits : nat) (resp : response) : outcome str :=
  text <- reply_content resp ;;
  call_strict3score max_digits text.

(** The mapping rule replaces the caption: the literal is a mapping with
    an item. *)
Definition takes_first_value (literal : outcome pyval) : bool :=
  match literal with
  | Returns (PyDict (_ :: _)) => true
  | _ => false
  end.

(** A response of the scoring service with status 200 and the body
    [{"choices": [{"message": {"role": "assistant", "content": content}}]}]. *)
Definition chat_completion (content : pyval) : response :=
  {| status_code := 200;
     json :=
       Returns
         (PyDict
            [(PyStr (py "choices"),
              PyList
                [PyDict
                   [(PyStr (py "message"),
                     PyDict [(PyStr (py "role"), PyStr (py "assistant"));
                             (PyStr (py "content"), content)])]])]) |}.

(** ** Construction of the validator and the module-level helpers *)

(** [x in v] for a string [x]: a key of a dict, an element of a list,
    tuple or set, a substring of a string; any other value is not
    iterable.  A string equals only a string. *)
Definition py_in (x : str) (v : pyval) : outcome bool :=
  match v with
  | PyDict items => Returns (existsb (fun kv => key_is_str x (fst kv)) items)
  | PyList l | PyTuple l | PySet l => Returns (existsb (key_is_str x) l)
  | PyStr s => Returns (contains x s)
  | _ => Raises (TypeError "argument is not iterable")
  end.

(** [v.get(k)] for a string [k]: only a dict has [get]. *)
Definition method_get (v : pyval) (k : str) : outcome pyval :=
  match v with
  | PyDict items =>
      Returns match dict_lookup (key_is_str k) items with
              | Some x => x
              | None => PyNone
              end
  | _ => Raises (AttributeError "object has no attribute 'get'")
  end.

(** [a or b]: [b] is evaluated only when [a] is false. *)
Definition py_or (a : pyval) (b : outcome pyval) : outcome pyval :=
  if truthy a then Returns a else b.

(** The attributes [__init__] sets on a [CivicValidator]. *)
Record validator : Type := {
  self_groq_api_key : pyval;
  self_ALLOWED_EXTENSIONS : list str;
  self_florence_client : option (str -> outcome pyval)
}.

(** The attributes [__init__] sets on a [DepartmentAnalytics]; the Groq
    client is an object of the [groq] package. *)
Record analytics (GroqClient : Type) : Type := {
  self_database_path : str;
  analytics_groq_api_key : pyval;
  self_groq_client : option GroqClient
}.

Section Construction.

(** [os.path.exists] *)
Variable os_path_exists : str -> bool.

(** [with open(path, "r") as f: yaml.safe_load(f)]: the value of the
    document, or the exception of the open or of the parse.  Documents
    that hold dates or binary data have no value among [pyval]. *)
Variable yaml_load : str -> outcome pyval.

(** [os.environ.get] *)
Variable environ_get : str -> option str.

(** [from gradio_client import Client; Client(space)]: the client, given
    by its [predict] call, or the exception of the import or of the
    constructor. *)
Variable Client : str -> outcome (str -> outcome pyval).

Definition environ_value (name : str) : pyval :=
  match environ_get name with
  | Some value => PyStr value
  | None => PyNone
  end.

(** [config["groq"].get("api_key")] *)
Definition config_api_key (config : pyval) : outcome pyval :=
  groq <- subscript_key config (py "groq") ;;
  method_get groq (py "api_key").

(** [config and "groq" in config], as a condition. *)
Definition lists_groq (config : pyval) : outcome bool :=
  if truthy config then py_in (py "groq") config else Returns false.

(** [_load_groq_key]: [Some key] inside stands for the [return] in the
    body of the [with], [None] for reaching the end of the [if]. *)
Definition _load_groq_key (config_path : str) : outcome pyval :=
  try_except
    (returned <-
       (if os_path_exists config_path then
          config <- yaml_load config_path ;;
          listed <- lists_groq config ;;
          if listed then
            key <- config_api_key config ;;
            Returns (Some key)
          else Returns None
        else Returns None) ;;
     match returned with
     | Some key => Returns key
     | None => Returns (environ_value (py "GROQ_API_KEY"))
     end)
    (fun _ => Returns PyNone).

Definition _init_florence_client : outcome (option (str -> outcome pyval)) :=
  try_except
    (client <- Client (py "GF-John/Florence-2") ;;
     Returns (Some client))
    (fun _ => Returns None).

(** [CivicValidator.__init__] *)
Definition CivicValidator_init (groq_api_key : pyval) (config_path : str)
  : outcome validator :=
  key <- py_or groq_api_key (_load_groq_key config_path) ;;
  client <- _init_florence_client ;;
  Returns {| self_groq_api_key := key;
             self_ALLOWED_EXTENSIONS := ALLOWED_EXTENSIONS;
             self_florence_client := client |}.

Definition default_config_path : str := py "config.yaml".

(** [create_validator(groq_api_key=None)] *)
Definition create_validator (groq_api_key : pyval) : outcome validator :=
  CivicValidator_init groq_api_key default_config_path.

Section Helpers.

Variable repr : pyval -> str.
Variable literal_eval : str -> outcome pyval.
Variable max_str_digits : nat.
Variable requests_post : request -> outcome response.
Variable Image_open : list byte -> nat -> outcome image * nat.
Variable Image_verify : image -> list byte -> nat -> outcome unit * nat.

(** The key as [f"{self.groq_api_key}"] prints it: [None] prints as the
    text None, a string as itself, any other value as [str] gives it. *)
Definition key_text (key : pyval) : option str :=
  match key with
  | PyNone => None
  | _ => Some (py_str repr key)
  end.



(** [score_strict3(caption, description, groq_api_key=None)] *)
Definition score_strict3 (caption description : str) (groq_api_key : pyval)
  : M network str :=
  validator <~ lift (CivicValidator_init groq_api_key default_config_path) ;;
  get_civic_score_strict3 max_str_digits requests_post
    (key_text (self_groq_api_key validator)) caption description.

End Helpers.

Section Analytics.

Variable GroqClient : Type.

(** [from groq import Groq; Groq(api_key=key)] *)
Variable Groq : pyval -> outcome GroqClient.

(** The [if os.path.exists(config_path)] block of
    [DepartmentAnalytics.__init__]: the key after it. *)
Definition key_after_config (groq_api_key : pyval) (config_path : str)
  : pyval :=
  if os_path_exists config_path then
    match
      try_except
        (config <- yaml_load config_path ;;
         listed <- lists_groq config ;;
         if listed then py_or groq_api_key (config_api_key config)
         else Returns groq_api_key)
        (fun _ => Returns groq_api_key)
    with
    | Returns key => key
    | Raises _ => groq_api_key
    end
  else groq_api_key.

(** [DepartmentAnalytics.__init__] *)
Definition DepartmentAnalytics_init
  (database_path : str) (groq_api_key : pyval) (config_path : str)
  : analytics GroqClient :=
  let key := key_after_config groq_api_key config_path in
  let key := if negb (truthy key) then PyStr (py "saksham") else key in
  let client :=
    if truthy key then
      match Groq key with
      | Returns c => Some c
      | Raises _ => None
      end
    else None in
  {| self_database_path := database_path;
     analytics_groq_api_key := key;
     self_groq_client := client |}.

End Analytics.

End Construction.

(** A world with no configuration file and no environment, for the
    examples; and one whose configuration has a [groq] section. *)
Definition no_file (path : str) : bool := false.
Definition a_file (path : str) : bool := true.
Definition no_environ (name : str) : option str := None.
Definition environ_with_key (name : str) : option str :=
  if str_eqb name (py "GROQ_API_KEY") then Some (py "env-key") else None.
Definition no_yaml (path : str) : outcome pyval :=
  Raises (Exception "FileNotFoundError" (py "No such file or directory")).
Definition yaml_of (config : pyval) (path : str) : outcome pyval :=
  Returns config.
Definition no_gradio (space : str) : outcome (str -> outcome pyval) :=
  Raises (Exception "ModuleNotFoundError" (py "No module named 'gradio_client'")).

Definition config_with_key : pyval :=
  PyDict [(PyStr (py "groq"), PyDict [(PyStr (py "api_key"), PyStr (py "file-key"))])].
Definition config_without_key : pyval :=
  PyDict [(PyStr (py "groq"), PyDict [(PyStr (py "model"), PyStr (py "m"))])].
Definition config_groq_text : pyval :=
  PyDict [(PyStr (py "groq"), PyStr (py "file-key"))].

Definition is_mapping (v : pyval) : bool :=
  match v with
  | PyDict _ => true
  | _ => false
  end.

(** A number or a boolean: a document that is no container. *)
Definition is_number (v : pyval) : bool :=
  match v with
  | PyBool _ | PyInt _ | PyFloat _ => true
  | _ => false
  end.

(** The ten digits. *)
Definition digits10 : str := py "0123456789".

(** The number the passes select is short enough for [int] under every
    limit. *)
Definition short_selection (text : str) : bool :=
  match selected_line text with
  | Some line => (List.length (first_digit_run line) <=? 640)%nat
  | None => true
  end.

(** A string of three characters parses to itself, when it is a score
    code. *)
Definition parses_to_itself (a b c : ascii) : bool :=
  implb (is_score_code [a; b; c])
        (short_selection [a; b; c] &&
         str_eqb (strict_parse_amended [a; b; c]) [a; b; c]).

(** The six rules with the first as C3 words it: only an upload that is
    not there, [None], is absent; an upload object goes on to rule 2. *)
Definition image_gate_rules_as_stated
  (Image_open : list byte -> nat -> outcome image * nat)
  (Image_verify : image -> list byte -> nat -> outcome unit * nat)
  (file : option upload) : bool * str :=
  match file with
  | None => (false, py "No file provided")
  | Some u =>
      if negb (extension_allowed (filename u))
      then (false, py "Invalid file type.")
      else
        match inspect Image_open Image_verify (content u) with
        | Raises e => (false, py "Invalid image file: " ++ exn_str e)
        | Returns (width, height) => dimensions_verdict width height
        end
  end.

(** A stand-in for [verify] that finds content of fewer than five bytes
    truncated, having read it to its end. *)
Definition strict_verify (img : image) (data : list byte) (pos : nat)
  : outcome unit * nat :=
  if (List.length data <? 5)%nat
  then (Raises (Exception "OSError" (py "image file is truncated")),
        List.length data)
  else (Returns tt, List.length data).

(** An image header with nothing after it. *)
Definition truncated_image : list byte := [x49; x32; x32].

(** ** The first statement of [get_florence_caption] *)

(** [os.path.basename] of a POSIX path: what follows the last slash. *)
Definition basename (path : str) : str :=
  rev (take_until "/"%char (rev path)).

(** The line the method prints first.  Its first character, U+1F504,
    lies outside the character range of the embedding and stands here as
    its four UTF-8 bytes. *)
Definition caption_announcement (image_path : str) : str :=
  py "🔄 Generating caption for: " ++ basename image_path.

Section CaptionCall.

Variable repr : pyval -> str.
Variable literal_eval : str -> outcome pyval.
Variable florence_client : option (str -> outcome pyval).
Variable path_exists : str -> bool.

(** [print(text)]: the write to [sys.stdout], which raises when the
    stream cannot encode the text or is closed. *)
Variable stdout_write : str -> outcome unit.

(** The whole method: the [print], which stands before the [try], and
    then the rest. *)
Definition get_florence_caption_with_print (image_path : str)
  : outcome pyval :=
  _ <- stdout_write (caption_announcement image_path) ;;
  get_florence_caption repr literal_eval florence_client path_exists
    image_path.

(** The call gets to the mapping rule and the rule replaces the caption:
    there is a client, the file exists, the call returns a reply, the
    caption text is in braces and is a mapping literal with an item. *)
Definition mapping_rule_fires (image_path : str) : bool :=
  match florence_client with
  | Some predict =>
      path_exists image_path &&
      match predict image_path with
      | Returns result =>
          in_braces (caption_text repr result) &&
          takes_first_value (literal_eval (caption_text repr result))
      | Raises _ => false
      end
  | None => false
  end.

End CaptionCall.

(** A stream that encodes every text, and one that encodes ASCII only. *)
Definition utf8_stdout (text : str) : outcome unit := Returns tt.

Definition ascii_stdout (text : str) : outcome unit :=
  if forallb (fun c => (ord c <? 128)%N) text then Returns tt
  else Raises (Exception "UnicodeEncodeError"
                 (py "'ascii' codec can't encode character")).

(** Case analysis on the 256 characters. *)
Ltac each_char c := destruct c as [[] [] [] [] [] [] [] []].

(** * Properties *)

(** ** Characters *)

Lemma space_not_digit (c : ascii) : isspace c = true -> isdigit c = false.
Proof. each_char c; vm_compute; congruence. Qed.

Lemma space_lower_not_s (c : ascii) :
  isspace c = true -> Ascii.eqb "s"%char (lower_char c) = false.
Proof. each_char c; vm_compute; congruence. Qed.

Lemma space_lower_outside_score (c : ascii) :
  isspace c = true ->
  forallb (fun a => negb (Ascii.eqb a (lower_char c))) (py "score") = true.
Proof. each_char c; vm_compute; congruence. Qed.

(** ** [re.findall] and the first digit run *)

Lemma scan_digits_run (s run : str) :
  run <> [] -> hd_error (scan_digits run s) = Some (rev run ++ take_digits s).
Proof.
  revert run. induction s as [|c r IH]; intros run Hrun; simpl.
  - destruct run; [congruence|]. simpl. now rewrite app_nil_r.
  - destruct (isdigit c).
    + rewrite IH by discriminate. simpl. now rewrite <- app_assoc.
    + destruct run; [congruence|]. simpl. now rewrite app_nil_r.
Qed.

Lemma findall_head (s : str) :
  hd_error (re_findall_digits s) =
  if has_digit s then Some (first_digit_run s) else None.
Proof.
  unfold re_findall_digits, first_digit_run.
  induction s as [|c r IH]; simpl; [reflexivity|].
  destruct (isdigit c) eqn:Hc; simpl.
  - rewrite scan_digits_run by discriminate. simpl. now rewrite Hc.
  - exact IH.
Qed.

Lemma take_digits_snoc (l : str) (c : ascii) :
  isdigit c = false -> take_digits (l ++ [c]) = take_digits l.
Proof.
  intros Hc. induction l as [|x l IH]; simpl.
  - now rewrite Hc.
  - destruct (isdigit x); [now rewrite IH | reflexivity].
Qed.

Lemma first_digit_run_snoc (l : str) (c : ascii) :
  isdigit c = false -> first_digit_run (l ++ [c]) = first_digit_run l.
Proof.
  intros Hc. unfold first_digit_run.
  induction l as [|x l IH]; simpl.
  - now rewrite Hc.
  - destruct (isdigit x) eqn:Hx; [|exact IH].
    simpl. rewrite Hx. now rewrite take_digits_snoc.
Qed.

Lemma has_digit_snoc (l : str) (c : ascii) :
  isdigit c = false -> has_digit (l ++ [c]) = has_digit l.
Proof.
  intros Hc. unfold has_digit. rewrite existsb_app. simpl.
  rewrite Hc. now rewrite !orb_false_r.
Qed.

(** ** "score" in a line, and blanks at the ends of the line *)

Lemma startswith_snoc (p x : str) (c : ascii) :
  forallb (fun a => negb (Ascii.eqb a c)) p = true ->
  startswith p (x ++ [c]) = startswith p x.
Proof.
  revert x. induction p as [|a p IH]; intros x Hp; [now destruct x|].
  simpl in Hp. apply andb_true_iff in Hp as [Ha Hp].
  destruct x as [|b x]; simpl.
  - apply negb_true_iff in Ha. now rewrite Ha.
  - now rewrite IH.
Qed.

Lemma contains_snoc (p x : str) (c : ascii) :
  forallb (fun a => negb (Ascii.eqb a c)) p = true ->
  contains p (x ++ [c]) = contains p x.
Proof.
  intros Hp. induction x as [|b x IH].
  - change (contains p ([] ++ [c])) with
      (startswith p ([] ++ [c]) || (startswith p [] || false)).
    rewrite startswith_snoc by assumption. simpl.
    now destruct (startswith p []).
  - change (contains p ((b :: x) ++ [c])) with
      (startswith p ((b :: x) ++ [c]) || contains p (x ++ [c])).
    rewrite startswith_snoc by assumption. now rewrite IH.
Qed.

Lemma contains_cons (a c : ascii) (p x : str) :
  Ascii.eqb a c = false -> contains (a :: p) (c :: x) = contains (a :: p) x.
Proof.
  intros Hac.
  change (contains (a :: p) (c :: x)) with
    (Ascii.eqb a c && startswith p x || contains (a :: p) x).
  now rewrite Hac.
Qed.

Lemma mentions_score_cons (c : ascii) (l : str) :
  isspace c = true -> mentions_score (c :: l) = mentions_score l.
Proof.
  intros Hc. unfold mentions_score.
  change (lower (c :: l)) with (lower_char c :: lower l).
  change (py "score") with ("s"%char :: py "core").
  apply contains_cons. now apply space_lower_not_s.
Qed.

Lemma mentions_score_snoc (c : ascii) (l : str) :
  isspace c = true -> mentions_score (l ++ [c]) = mentions_score l.
Proof.
  intros Hc. unfold mentions_score, lower. rewrite map_app. simpl.
  apply contains_snoc. now apply space_lower_outside_score.
Qed.

(** ** Lines and blanks *)

Lemma split_nonempty (sep : ascii) (s : str) : split sep s <> [].
Proof.
  destruct s as [|c r]; simpl; [discriminate|].
  destruct (Ascii.eqb c sep); [discriminate|].
  destruct (split sep r); discriminate.
Qed.

Lemma split_snoc_sep (sep : ascii) (s : str) :
  split sep (s ++ [sep]) = split sep s ++ [[]].
Proof.
  induction s as [|x s IH]; simpl.
  - now rewrite Ascii.eqb_refl.
  - rewrite IH. destruct (Ascii.eqb x sep); [reflexivity|].
    destruct (split sep s) eqn:E; [now apply split_nonempty in E|reflexivity].
Qed.

Lemma split_snoc (sep c : ascii) (s : str) :
  Ascii.eqb c sep = false ->
  split sep (s ++ [c]) = map_last (fun l => l ++ [c]) (split sep s).
Proof.
  intros Hc. induction s as [|x s IH]; simpl.
  - now rewrite Hc.
  - rewrite IH.
    destruct (split sep s) as [|l ls] eqn:E; [now apply split_nonempty in E|].
    destruct (Ascii.eqb x sep); [reflexivity|].
    destruct ls; reflexivity.
Qed.

Lemma first_some_cons {A B : Type} (g : A -> option B) (x : A) (r : list A) :
  first_some g (x :: r) =
  match g x with
  | Some b => Some b
  | None => first_some g r
  end.
Proof. reflexivity. Qed.

Section Readings.

(** A per-line reading that does not see blanks at the ends of a line. *)
Variable g : str -> option str.
Hypothesis g_nil : g [] = None.
Hypothesis g_cons : forall c l, isspace c = true -> g (c :: l) = g l.
Hypothesis g_snoc : forall c l, isspace c = true -> g (l ++ [c]) = g l.

Lemma first_some_snoc_nil (L : list str) :
  first_some g (L ++ [[]]) = first_some g L.
Proof.
  induction L as [|l L IH]; simpl; [now rewrite g_nil|].
  now rewrite IH.
Qed.

Lemma first_some_map_last (c : ascii) (L : list str) :
  isspace c = true ->
  first_some g (map_last (fun l => l ++ [c]) L) = first_some g L.
Proof.
  intros Hc. induction L as [|l L IH]; [reflexivity|].
  destruct L as [|l' L].
  - simpl. now rewrite g_snoc.
  - change (map_last (fun l => l ++ [c]) (l :: l' :: L))
      with (l :: map_last (fun l => l ++ [c]) (l' :: L)).
    rewrite !(first_some_cons g l). now rewrite IH.
Qed.

Lemma first_some_split_cons (c : ascii) (s : str) :
  isspace c = true ->
  first_some g (split newline (c :: s)) = first_some g (split newline s).
Proof.
  intros Hc. simpl split.
  destruct (Ascii.eqb c newline).
  - simpl. now rewrite g_nil.
  - destruct (split newline s) as [|l ls] eqn:E;
      [now apply split_nonempty in E|].
    simpl. now rewrite g_cons.
Qed.

Lemma first_some_split_snoc (c : ascii) (s : str) :
  isspace c = true ->
  first_some g (split newline (s ++ [c])) = first_some g (split newline s).
Proof.
  intros Hc. destruct (Ascii.eqb c newline) eqn:E.
  - apply Ascii.eqb_eq in E. subst c.
    rewrite split_snoc_sep. apply first_some_snoc_nil.
  - rewrite split_snoc by assumption. now apply first_some_map_last.
Qed.

Lemma first_some_split_lstrip (s : str) :
  first_some g (split newline (lstrip s)) = first_some g (split newline s).
Proof.
  induction s as [|c r IH]; [reflexivity|].
  simpl lstrip. destruct (isspace c) eqn:Hc; [|reflexivity].
  rewrite IH. symmetry. now apply first_some_split_cons.
Qed.

Lemma first_some_split_blanks (s w : str) :
  forallb isspace w = true ->
  first_some g (split newline (s ++ w)) = first_some g (split newline s).
Proof.
  induction w as [|c w IH] using rev_ind; intros Hw.
  - now rewrite app_nil_r.
  - rewrite forallb_app in Hw. apply andb_true_iff in Hw as [Hw Hc].
    simpl in Hc. rewrite andb_true_r in Hc.
    rewrite app_assoc, first_some_split_snoc by assumption. now apply IH.
Qed.

Lemma lstrip_blanks (s : str) :
  exists w, s = w ++ lstrip s /\ forallb isspace w = true.
Proof.
  induction s as [|c r [w [E Hw]]].
  - now exists [].
  - simpl. destruct (isspace c) eqn:Hc.
    + exists (c :: w). simpl. rewrite Hc, Hw. now rewrite <- E.
    + now exists [].
Qed.

Lemma rstrip_blanks (s : str) :
  exists w, s = rstrip s ++ w /\ forallb isspace w = true.
Proof.
  destruct (lstrip_blanks (rev s)) as [w [E Hw]].
  exists (rev w). split.
  - unfold rstrip. rewrite <- rev_app_distr, <- E. now rewrite rev_involutive.
  - apply forallb_forall. intros x Hx. apply in_rev in Hx.
    now apply (proj1 (forallb_forall isspace w) Hw).
Qed.

Lemma first_some_split_strip (s : str) :
  first_some g (split newline (strip s)) = first_some g (split newline s).
Proof.
  transitivity (first_some g (split newline (lstrip s)));
    [|apply first_some_split_lstrip].
  unfold strip. destruct (rstrip_blanks (lstrip s)) as [w [E Hw]].
  rewrite <- (first_some_split_blanks (rstrip (lstrip s)) w Hw).
  now rewrite <- E.
Qed.

End Readings.

(** ** The two passes as readings of the lines *)

Lemma run_if_digit_nil : run_if has_digit [] = None.
Proof. reflexivity. Qed.

Lemma first_digit_run_cons (c : ascii) (l : str) :
  isdigit c = false -> first_digit_run (c :: l) = first_digit_run l.
Proof. intros Hc. unfold first_digit_run. simpl. now rewrite Hc. Qed.

Lemma has_digit_cons (c : ascii) (l : str) :
  isdigit c = false -> has_digit (c :: l) = has_digit l.
Proof. intros Hc. unfold has_digit. simpl. now rewrite Hc. Qed.

Lemma run_if_digit_cons (c : ascii) (l : str) :
  isspace c = true -> run_if has_digit (c :: l) = run_if has_digit l.
Proof.
  intros Hc. apply space_not_digit in Hc. unfold run_if.
  now rewrite has_digit_cons, first_digit_run_cons.
Qed.

Lemma run_if_digit_snoc (c : ascii) (l : str) :
  isspace c = true -> run_if has_digit (l ++ [c]) = run_if has_digit l.
Proof.
  intros Hc. apply space_not_digit in Hc. unfold run_if.
  now rewrite has_digit_snoc, first_digit_run_snoc.
Qed.

Lemma run_if_score_nil : run_if score_and_digit [] = None.
Proof. reflexivity. Qed.

Lemma run_if_score_cons (c : ascii) (l : str) :
  isspace c = true ->
  run_if score_and_digit (c :: l) = run_if score_and_digit l.
Proof.
  intros Hc. unfold run_if, score_and_digit.
  rewrite mentions_score_cons by assumption. apply space_not_digit in Hc.
  now rewrite has_digit_cons, first_digit_run_cons.
Qed.

Lemma run_if_score_snoc (c : ascii) (l : str) :
  isspace c = true ->
  run_if score_and_digit (l ++ [c]) = run_if score_and_digit l.
Proof.
  intros Hc. unfold run_if, score_and_digit.
  rewrite mentions_score_snoc by assumption. apply space_not_digit in Hc.
  now rewrite has_digit_snoc, first_digit_run_snoc.
Qed.

Lemma first_some_run_if (p : str -> bool) (L : list str) :
  first_some (run_if p) L = option_map first_digit_run (find p L).
Proof.
  induction L as [|l L IH]; [reflexivity|].
  simpl. unfold run_if at 1. now destruct (p l).
Qed.

Lemma clamp_format_spec (max_digits : nat) (run : str) :
  clamp_format max_digits run =
  if int_accepts max_digits run then Returns (score_code_of run)
  else Raises ValueError_int_limit.
Proof.
  unfold clamp_format, py_int, int_refuses, int_accepts, score_code_of.
  destruct (Nat.ltb_spec 640 (List.length run)),
    (Nat.leb_spec (List.length run) 640); try lia; [|reflexivity].
  destruct (Nat.ltb_spec 0 max_digits), (Nat.eqb_spec max_digits 0);
    try lia; [|reflexivity].
  destruct (Nat.ltb_spec max_digits (List.length run)),
    (Nat.leb_spec (List.length run) max_digits); try lia; reflexivity.
Qed.

(** What the body of either loop does with the numbers of a line. *)
Lemma findall_cases (line : str) :
  match re_findall_digits line with
  | number :: _ => has_digit line = true /\ number = first_digit_run line
  | [] => has_digit line = false
  end.
Proof.
  pose proof (findall_head line) as H.
  destruct (re_findall_digits line); simpl in H;
    destruct (has_digit line); try discriminate; auto.
  injection H as ->. auto.
Qed.

Lemma any_line_loop_first_some (max_digits : nat) (lines : list str) :
  any_line_loop max_digits lines =
  match first_some (run_if has_digit) lines with
  | Some run => v <- clamp_format max_digits run ;; Returns (Some v)
  | None => Returns None
  end.
Proof.
  induction lines as [|line rest IH]; [reflexivity|].
  simpl. unfold run_if at 1. pose proof (findall_cases line) as H.
  destruct (re_findall_digits line) as [|number ?].
  - now rewrite H.
  - destruct H as [-> ->]. reflexivity.
Qed.

Lemma score_line_loop_first_some (max_digits : nat) (lines : list str) :
  score_line_loop max_digits lines =
  match first_some (run_if score_and_digit) lines with
  | Some run => v <- clamp_format max_digits run ;; Returns (Some v)
  | None => Returns None
  end.
Proof.
  induction lines as [|line rest IH]; [reflexivity|].
  change (score_line_loop max_digits (line :: rest)) with
    (if mentions_score line then
       match re_findall_digits line with
       | number :: _ => v <- clamp_format max_digits number ;; Returns (Some v)
       | [] => score_line_loop max_digits rest
       end
     else score_line_loop max_digits rest).
  rewrite first_some_cons. unfold run_if at 1, score_and_digit at 1.
  destruct (mentions_score line); [|exact IH]. rewrite andb_true_l.
  pose proof (findall_cases line) as H.
  destruct (re_findall_digits line) as [|number ?].
  - now rewrite H.
  - destruct H as [-> ->]. reflexivity.
Qed.

(** [_strict3score] in one equation: the number of the selected line goes
    through [int], the clamp and the format; the strip of the reply does
    not show. *)
Lemma strict3score_selected (max_digits : nat) (text : str) :
  _strict3score max_digits text =
  match selected_line text with
  | Some line => clamp_format max_digits (first_digit_run line)
  | None => Returns (py "000")
  end.
Proof.
  unfold _strict3score, selected_line, lines_of.
  rewrite score_line_loop_first_some, any_line_loop_first_some.
  rewrite (@first_some_split_strip _ run_if_score_nil run_if_score_cons
             run_if_score_snoc).
  rewrite (@first_some_split_strip _ run_if_digit_nil run_if_digit_cons
             run_if_digit_snoc).
  rewrite !first_some_run_if.
  destruct (find score_and_digit (split newline text)); simpl.
  - now destruct (clamp_format max_digits (first_digit_run s)).
  - destruct (find has_digit (split newline text)); simpl; [|reflexivity].
    now destruct (clamp_format max_digits (first_digit_run s)).
Qed.

(** ** The format of the score *)

Lemma format_03d_table :
  forallb (fun k => is_score_code (format_03d (Z.of_nat k)) &&
                    (int_of_digits (format_03d (Z.of_nat k)) =? N.of_nat k)%N)
          (seq 0 101) = true.
Proof. vm_compute. reflexivity. Qed.

Lemma format_03d_code (z : Z) :
  (0 <= z <= 100)%Z ->
  is_score_code (format_03d z) = true /\
  int_of_digits (format_03d z) = Z.to_N z.
Proof.
  intros Hz.
  pose proof (proj1 (forallb_forall _ _) format_03d_table (Z.to_nat z)) as H.
  simpl in H. rewrite Z2Nat.id in H by lia.
  assert (Hin : In (Z.to_nat z) (seq 0 101)) by (apply in_seq; lia).
  apply H in Hin. apply andb_true_iff in Hin as [H1 H2].
  split; [assumption|]. apply N.eqb_eq in H2. rewrite H2. lia.
Qed.

Lemma score_code_of_code (run : str) : is_score_code (score_code_of run) = true.
Proof. unfold score_code_of. apply format_03d_code. lia. Qed.

Lemma strict3score_code (max_digits : nat) (text code : str) :
  _strict3score max_digits text = Returns code -> is_score_code code = true.
Proof.
  rewrite strict3score_selected. destruct (selected_line text).
  - rewrite clamp_format_spec.
    destruct (int_accepts max_digits (first_digit_run s)); [|discriminate].
    intros [= <-]. apply score_code_of_code.
  - intros [= <-]. reflexivity.
Qed.

(** ** The relevance scorer *)

Example strict3_label :
  _strict3score 4300 (py "Score: 85") = Returns (py "085").
Proof. reflexivity. Qed.

Example strict3_clamp :
  _strict3score 4300 (py "Score: 150") = Returns (py "100").
Proof. reflexivity. Qed.

Example strict3_sign :
  _strict3score 4300 (py "Score: -5") = Returns (py "005").
Proof. reflexivity. Qed.

Example strict3_no_digits :
  _strict3score 4300 (py "no idea") = Returns (py "000").
Proof. reflexivity. Qed.

Example strict3_precedence :
  _strict3score 4300
    (py ("12 potholes" ++ nl ++ "SCORE = 85" ++ nl ++ "3 lamps")%string)
  = Returns (py "085").
Proof. reflexivity. Qed.

Lemma is_score_code_spec (code : str) :
  is_score_code code = true ->
  List.length code = 3%nat /\
  Forall (fun c => isdigit c = true) code /\
  (int_of_digits code <= 100)%N.
Proof.
  unfold is_score_code. intros H.
  apply andb_true_iff in H as [H H3]. apply andb_true_iff in H as [H1 H2].
  repeat split.
  - now apply Nat.eqb_eq.
  - apply Forall_forall. now apply forallb_forall.
  - now apply N.leb_le.
Qed.

(** The score returned, whatever the service does. *)
Lemma get_civic_score_cases
  (max_digits : nat) (requests_post : request -> outcome response)
  (key : option str) (caption description : str) (sent : network) :
  exists code,
    get_civic_score_strict3 max_digits requests_post key caption description sent
    = (Returns code, sent ++ [score_request key caption description]) /\
    is_score_code code = true.
Proof.
  unfold get_civic_score_strict3, bindM, try_exceptM, post, lift, ret.
  destruct (requests_post (score_request key caption description))
    as [resp|e]; [|now exists (py "000")].
  destruct (status_code resp =? 200)%Z; [|now exists (py "000")].
  destruct (reply_content resp) as [text|e]; [|now exists (py "000")].
  destruct (call_strict3score max_digits text) as [code|e] eqn:E;
    [|now exists (py "000")].
  exists code. split; [reflexivity|].
  destruct text; try discriminate. simpl in E.
  now apply strict3score_code in E.
Qed.

(** C1. For every caption and description (the empty strings too) and
    for every behaviour of the scoring service (a reply with any text, a
    status other than 200, a failure of the transport),
    [get_civic_score_strict3] returns a string of exactly three ASCII
    digits whose value is between 0 and 100. *)
Theorem C1_score_code
  (max_digits : nat) (requests_post : request -> outcome response)
  (key : option str) (caption description : str) (sent : network) :
  exists code,
    fst (get_civic_score_strict3 max_digits requests_post key
           caption description sent) = Returns code /\
    List.length code = 3%nat /\
    Forall (fun c => isdigit c = true) code /\
    (int_of_digits code <= 100)%N.
Proof.
  destruct (get_civic_score_cases max_digits requests_post key
              caption description sent) as [code [E H]].
  exists code. rewrite E. split; [reflexivity|].
  now apply is_score_code_spec.
Qed.

(** C5. If the request fails in transport, or the service answers with a
    status other than 200, [get_civic_score_strict3] returns "000", and
    the one request it sent is all it sent: there is no retry. *)
Theorem C5_fallback_without_retry
  (max_digits : nat) (requests_post : request -> outcome response)
  (key : option str) (caption description : str) (sent : network) :
  service_failed (requests_post (score_request key caption description)) = true ->
  get_civic_score_strict3 max_digits requests_post key caption description sent
  = (Returns (py "000"), sent ++ [score_request key caption description]).
Proof.
  unfold service_failed, get_civic_score_strict3, bindM, try_exceptM, post,
    lift, ret.
  destruct (requests_post (score_request key caption description))
    as [resp|e]; [|reflexivity].
  destruct (status_code resp =? 200)%Z; [discriminate|reflexivity].
Qed.

Lemma C5_fallback_without_retry_witness :
  get_civic_score_strict3 4300
    (fun _ => Raises (Exception "ConnectionError" (py "connection refused")))
    None (py "pothole") (py "road broken") []
  = (Returns (py "000"), [score_request None (py "pothole") (py "road broken")])
  /\
  get_civic_score_strict3 4300
    (fun _ => Returns {| status_code := 503;
                         json := Returns (PyStr (py "Score: 90")) |})
    (Some (py "key")) [] [] []
  = (Returns (py "000"), [score_request (Some (py "key")) [] []]).
Proof.
  split.
  - apply (C5_fallback_without_retry 4300
             (fun _ => Raises (Exception "ConnectionError"
                                 (py "connection refused")))
             None (py "pothole") (py "road broken") []).
    reflexivity.
  - apply (C5_fallback_without_retry 4300
             (fun _ => Returns {| status_code := 503;
                                  json := Returns (PyStr (py "Score: 90")) |})
             (Some (py "key")) [] [] []).
    reflexivity.
Defined.

(** The reply of the end-to-end scenario of the specification, and
    replies whose content is no text or no number. *)
Example score_of_labelled_reply :
  get_civic_score_strict3 4300
    (fun _ => Returns (chat_completion (PyStr (py "The relevance score: 085"))))
    (Some (py "key")) (py "Caption generation unavailable") (py "pothole") []
  = (Returns (py "085"),
     [score_request (Some (py "key")) (py "Caption generation unavailable")
        (py "pothole")]).
Proof. reflexivity. Qed.

Example score_of_null_content :
  fst (get_civic_score_strict3 4300
         (fun _ => Returns (chat_completion PyNone)) None [] [] [])
  = Returns (py "000").
Proof. reflexivity. Qed.

Example score_of_long_number :
  fst (get_civic_score_strict3 4300
         (fun _ => Returns (chat_completion (PyStr reply_long_number)))
         None [] [] [])
  = Returns (py "000").
Proof. vm_compute. reflexivity. Qed.

Lemma find_after {A : Type} (p : A -> bool) (pre post : list A) (x : A) :
  forallb (fun a => negb (p a)) pre = true ->
  p x = true ->
  find p (pre ++ x :: post) = Some x.
Proof.
  intros Hpre Hx. induction pre as [|a pre IH]; simpl.
  - now rewrite Hx.
  - simpl in Hpre. apply andb_true_iff in Hpre as [Ha Hpre].
    apply negb_true_iff in Ha. rewrite Ha. now apply IH.
Qed.

Lemma find_none {A : Type} (p : A -> bool) (l : list A) :
  forallb (fun a => negb (p a)) l = true -> find p l = None.
Proof.
  induction l as [|a l IH]; [reflexivity|]. simpl. intros H.
  apply andb_true_iff in H as [Ha H]. apply negb_true_iff in Ha.
  rewrite Ha. now apply IH.
Qed.

(** C2 as stated fails on a reply of three lines, where the code and the
    four steps part: the code returns the number of the second "score"
    line, which the first pass of the steps never looks at (they read
    "000" off the first "score" line, and the 7 of the line between
    belongs to a pass that does not run).  The last part is the reply
    whose number [int] refuses under CPython's default limit of 4300
    digits. *)
Lemma C2_strict_parse_counterexample :
  _strict3score 4300 reply_two_score_lines = Returns (py "042") /\
  find mentions_score (lines_of reply_two_score_lines)
  = Some (py "score: none") /\
  find has_digit (lines_of reply_two_score_lines) = Some (py "7") /\
  strict_parse reply_two_score_lines = py "000" /\
  _strict3score 4300 reply_long_number = Raises ValueError_int_limit /\
  strict_parse reply_long_number = py "100".
Proof.
  split; [|split; [|split; [|split; [|split]]]]; vm_compute; reflexivity.
Qed.

(** C2, amended.  For every reply text whose selected number [int]
    converts (every text when the interpreter sets no limit on the digits
    of a number), [_strict3score] equals this parser: split the text into
    lines, in reply order; first pass, take the first line that contains
    "score" (in any case of the letters) and a digit, and return the
    first run of decimal digits of that line, clamped to [0, 100] and
    zero-padded to three digits; second pass, only if no line contains
    both, return the first digit run of the first line that contains a
    digit, clamped and padded; if no line contains a digit, return
    "000". *)
Theorem C2_strict3score_parser (max_digits : nat) (text : str) :
  int_accepts_reply max_digits text = true ->
  _strict3score max_digits text = Returns (strict_parse_amended text).
Proof.
  unfold int_accepts_reply, strict_parse_amended.
  rewrite strict3score_selected.
  destruct (selected_line text) as [line|]; [|reflexivity].
  rewrite clamp_format_spec. now intros ->.
Qed.

Lemma C2_strict3score_parser_witness :
  _strict3score 4300 (py "Score: 150")
  = Returns (strict_parse_amended (py "Score: 150")) /\
  strict_parse_amended (py "Score: 150") = py "100" /\
  _strict3score 4300 reply_two_score_lines
  = Returns (strict_parse_amended reply_two_score_lines).
Proof.
  split; [|split].
  - apply (C2_strict3score_parser 4300 (py "Score: 150")). reflexivity.
  - reflexivity.
  - apply (C2_strict3score_parser 4300 reply_two_score_lines). reflexivity.
Defined.

(** With no limit on the digits, [int] converts every number. *)
Lemma int_accepts_reply_no_limit (text : str) :
  int_accepts_reply 0 text = true.
Proof.
  unfold int_accepts_reply, int_accepts.
  destruct (selected_line text); [|reflexivity].
  now rewrite orb_true_r.
Qed.

(** C9. In [_strict3score], a first "score" line without digits does not
    end the first pass: the pass goes on over the following lines and
    returns the first digit run of the next line that contains "score"
    and a digit; the second pass, over any line, runs only when no line
    that contains "score" contains a digit, and it may then return the
    digits of a line that stands before the "score" line. *)
Theorem C9_first_pass_goes_on (max_digits : nat) (text : str) :
  (forall before first between line after,
      lines_of text = before ++ first :: between ++ line :: after ->
      forallb (fun l => negb (mentions_score l)) before = true ->
      mentions_score first = true ->
      has_digit first = false ->
      forallb (fun l => negb (score_and_digit l)) between = true ->
      mentions_score line = true ->
      has_digit line = true ->
      _strict3score max_digits text
      = clamp_format max_digits (first_digit_run line)) /\
  (forallb (fun l => negb (score_and_digit l)) (lines_of text) = true ->
   _strict3score max_digits text
   = match find has_digit (lines_of text) with
     | Some line => clamp_format max_digits (first_digit_run line)
     | None => Returns (py "000")
     end) /\
  (lines_of reply_number_before_score = [py "7 items"; py "score: n/a"] /\
   _strict3score max_digits reply_number_before_score = Returns (py "007")).
Proof.
  split; [|split].
  - intros before first between line after E Hb Hf Hfd Hm Hl Hld.
    rewrite strict3score_selected. unfold selected_line. rewrite E.
    replace (before ++ first :: between ++ line :: after)
      with ((before ++ first :: between) ++ line :: after)
      by now rewrite <- app_assoc.
    rewrite (find_after score_and_digit); [reflexivity| |].
    + rewrite forallb_app. simpl. apply andb_true_iff. split.
      * apply forallb_forall. intros l Hin.
        apply (proj1 (forallb_forall _ _) Hb) in Hin.
        unfold score_and_digit. apply negb_true_iff in Hin. now rewrite Hin.
      * unfold score_and_digit at 1. rewrite Hfd, andb_false_r. exact Hm.
    + unfold score_and_digit. now rewrite Hl, Hld.
  - intros H. rewrite strict3score_selected. unfold selected_line.
    now rewrite (find_none score_and_digit).
  - split; [reflexivity|].
    rewrite strict3score_selected.
    change (selected_line reply_number_before_score) with (Some (py "7 items")).
    cbv beta iota. rewrite clamp_format_spec.
    replace (int_accepts max_digits (first_digit_run (py "7 items"))) with true;
      [reflexivity|].
    reflexivity.
Qed.

Lemma C9_first_pass_goes_on_witness :
  _strict3score 4300 reply_two_score_lines = Returns (py "042") /\
  _strict3score 4300 reply_number_before_score = Returns (py "007").
Proof.
  destruct (C9_first_pass_goes_on 4300 reply_two_score_lines) as [Later _].
  destruct (C9_first_pass_goes_on 4300 reply_number_before_score)
    as [_ [Second _]].
  split.
  - etransitivity;
      [apply (Later [] (py "score: none") [py "7"] (py "score 42") []) |];
      reflexivity.
  - etransitivity; [apply Second|]; reflexivity.
Defined.

(** ** The caption requester *)

Lemma extract_caption_cases
  (repr : pyval -> str) (literal_eval : str -> outcome pyval) (result : pyval) :
  _extract_caption repr literal_eval result =
  Returns (if in_braces (caption_text repr result)
           then mapping_rule (literal_eval (caption_text repr result))
                  (caption_text repr result)
           else PyStr (caption_text repr result)).
Proof.
  unfold _extract_caption, in_braces, mapping_rule.
  destruct (startswith (py "{") (caption_text repr result) &&
            endswith (py "}") (caption_text repr result)); [|reflexivity].
  destruct (literal_eval (caption_text repr result)) as [v|e]; [|reflexivity].
  destruct v; try reflexivity.
  destruct items as [|[key value] items]; reflexivity.
Qed.

(** C7. If the caption text starts with an opening brace and ends with a
    closing brace, [_extract_caption] parses it as a literal: when the
    literal is a mapping, the first value of the mapping is returned in
    place of the text (the reply text {'caption': 'Pothole on street'}
    gives Pothole on street); when the parse fails, the failure is
    dropped and the text is returned unchanged. *)
Theorem C7_first_value_of_mapping
  (repr : pyval -> str) (literal_eval : str -> outcome pyval) :
  (forall result,
      in_braces (caption_text repr result) = true ->
      (forall key value items,
          literal_eval (caption_text repr result)
          = Returns (PyDict ((key, value) :: items)) ->
          _extract_caption repr literal_eval result = Returns value) /\
      (forall e,
          literal_eval (caption_text repr result) = Raises e ->
          _extract_caption repr literal_eval result
          = Returns (PyStr (caption_text repr result)))) /\
  (literal_eval (py "{'caption': 'Pothole on street'}")
   = Returns (PyDict [(PyStr (py "caption"), PyStr (py "Pothole on street"))]) ->
   _extract_caption repr literal_eval
     (PyStr (py "{'caption': 'Pothole on street'}"))
   = Returns (PyStr (py "Pothole on street"))).
Proof.
  split.
  - intros result Hb. rewrite extract_caption_cases, Hb.
    split; intros; now rewrite H.
  - intros H. rewrite extract_caption_cases.
    change (caption_text repr (PyStr (py "{'caption': 'Pothole on street'}")))
      with (py "{'caption': 'Pothole on street'}").
    now rewrite H.
Qed.

Lemma C7_first_value_of_mapping_witness :
  _extract_caption repr_sample literal_eval_sample
    (PyStr (py "{'caption': 'Pothole on street'}"))
  = Returns (PyStr (py "Pothole on street")) /\
  _extract_caption repr_sample literal_eval_sample
    (PyList [PyStr (py "{'caption': 'Pothole on street'}"); PyNone])
  = Returns (PyStr (py "Pothole on street")) /\
  _extract_caption repr_sample literal_eval_sample (PyStr (py "{oops}"))
  = Returns (PyStr (py "{oops}")).
Proof.
  destruct (C7_first_value_of_mapping repr_sample literal_eval_sample)
    as [Rule Example].
  split; [|split].
  - apply Example. reflexivity.
  - destruct (Rule (PyList [PyStr (py "{'caption': 'Pothole on street'}");
                            PyNone])) as [First _]; [reflexivity|].
    apply (First (PyStr (py "caption")) (PyStr (py "Pothole on street")) []).
    reflexivity.
  - destruct (Rule (PyStr (py "{oops}"))) as [_ Dropped]; [reflexivity|].
    apply (Dropped (Exception "ValueError" (py "malformed node or string"))).
    reflexivity.
Defined.

(** The other replies the mapping rule meets: an empty mapping and a
    literal that is no mapping leave the text as it is. *)
Example extract_caption_empty_mapping :
  _extract_caption repr_sample literal_eval_sample (PyStr (py "{}"))
  = Returns (PyStr (py "{}")).
Proof. reflexivity. Qed.

Example extract_caption_set :
  _extract_caption repr_sample literal_eval_sample (PyStr (py "{1, 2}"))
  = Returns (PyStr (py "{1, 2}")).
Proof. reflexivity. Qed.

Example extract_caption_sequence :
  _extract_caption repr_sample literal_eval_sample
    (PyList [PyStr (py "Pothole on street")])
  = Returns (PyStr (py "Pothole on street")).
Proof. reflexivity. Qed.

Example extract_caption_nothing :
  _extract_caption repr_sample literal_eval_sample (PyTuple [PyStr []; PyInt 3])
  = Returns (PyStr (py "No caption generated")).
Proof. reflexivity. Qed.

(** C6, at the reply on which it fails.  The service answers with the text
    of a mapping whose first value is the empty string: the caption
    returned is the empty string.  The other branches of
    [_extract_caption] replace an empty reply by "No caption generated";
    the mapping rule returns the first value as it is. *)
Lemma C6_caption_can_be_empty :
  get_florence_caption repr_sample literal_eval_sample
    (client_replying (PyStr (py "{'caption': ''}")))
    (fun _ => true) (py "uploads/pothole.png")
  = Returns (PyStr []).
Proof. reflexivity. Qed.

(** [get_florence_caption] always returns. *)
Lemma get_florence_caption_cases
  (repr : pyval -> str) (literal_eval : str -> outcome pyval)
  (florence_client : option (str -> outcome pyval))
  (path_exists : str -> bool) (image_path : str) :
  get_florence_caption repr literal_eval florence_client path_exists image_path
  = Returns
      match florence_client with
      | None => PyStr (py "Caption generation unavailable")
      | Some predict =>
          if negb (path_exists image_path)
          then PyStr (py "Image file not found")
          else
            match predict image_path with
            | Raises e => PyStr (py "Caption generation failed: " ++ exn_str e)
            | Returns result =>
                if in_braces (caption_text repr result)
                then mapping_rule (literal_eval (caption_text repr result))
                       (caption_text repr result)
                else PyStr (caption_text repr result)
            end
      end.
Proof.
  unfold get_florence_caption.
  destruct florence_client as [predict|]; [|reflexivity].
  destruct (negb (path_exists image_path)); [reflexivity|].
  destruct (predict image_path) as [result|e]; [|reflexivity].
  simpl. now rewrite extract_caption_cases.
Qed.



(** ** The image gate *)

Lemma startswith_nil (s : str) : startswith [] s = true.
Proof. now destruct s. Qed.

Lemma contains_dot (name : str) : contains (py ".") name = has_dot name.
Proof.
  induction name as [|c r IH]; [reflexivity|].
  change (contains (py ".") (c :: r)) with
    (Ascii.eqb "."%char c && startswith [] r || contains (py ".") r).
  rewrite startswith_nil, andb_true_r, IH. reflexivity.
Qed.

Lemma has_dot_app (a b : str) : has_dot (a ++ b) = has_dot a || has_dot b.
Proof. apply existsb_app. Qed.

Lemma has_dot_rev (name : str) : has_dot (rev name) = has_dot name.
Proof.
  induction name as [|c r IH]; [reflexivity|].
  simpl rev. rewrite has_dot_app, IH.
  change (has_dot [c]) with (Ascii.eqb "."%char c || false).
  change (has_dot (c :: r)) with (Ascii.eqb "."%char c || has_dot r).
  rewrite orb_false_r. apply orb_comm.
Qed.

Lemma partition_dot (s : str) :
  match partition "."%char s with
  | Some (a, _) => has_dot s = true /\ a = take_until "."%char s
  | None => has_dot s = false
  end.
Proof.
  induction s as [|c r IH]; [reflexivity|].
  change (partition "."%char (c :: r)) with
    (if Ascii.eqb c "."%char then Some ([], r)
     else match partition "."%char r with
          | Some (a, b) => Some (c :: a, b)
          | None => None
          end).
  change (has_dot (c :: r)) with (Ascii.eqb "."%char c || has_dot r).
  change (take_until "."%char (c :: r)) with
    (if Ascii.eqb c "."%char then [] else c :: take_until "."%char r).
  rewrite (Ascii.eqb_sym "."%char c).
  destruct (Ascii.eqb c "."%char); [now split|].
  destruct (partition "."%char r) as [[a b]|]; [|exact IH].
  destruct IH as [H ->]. now split.
Qed.

(** [allowed_file] never raises, and it judges the extension. *)
Lemma allowed_file_extension (name : option str) :
  allowed_file name = Returns (extension_allowed name).
Proof.
  destruct name as [name|]; [|reflexivity].
  unfold allowed_file, extension_allowed, extension, rsplit1.
  rewrite contains_dot.
  destruct name as [|c r]; [reflexivity|].
  change (negb (nonempty (c :: r))) with false. cbv iota.
  pose proof (partition_dot (rev (c :: r))) as H.
  rewrite has_dot_rev in H.
  destruct (partition "."%char (rev (c :: r))) as [[a b]|].
  - destruct H as [-> ->]. reflexivity.
  - now rewrite H.
Qed.

Lemma take_until_app (a b : str) :
  has_dot a = false -> take_until "."%char (a ++ "."%char :: b) = a.
Proof.
  induction a as [|c a IH].
  - reflexivity.
  - change (has_dot (c :: a)) with (Ascii.eqb "."%char c || has_dot a).
    change (take_until "."%char ((c :: a) ++ "."%char :: b)) with
      (if Ascii.eqb c "."%char then []
       else c :: take_until "."%char (a ++ "."%char :: b)).
    rewrite (Ascii.eqb_sym "."%char c). intros H.
    apply orb_false_iff in H as [-> H]. now rewrite IH.
Qed.

Lemma extension_after_last_dot (stem ext : str) :
  has_dot ext = false -> extension (stem ++ "."%char :: ext) = ext.
Proof.
  intros H. unfold extension.
  rewrite rev_app_distr. simpl rev. rewrite <- app_assoc. simpl app.
  rewrite take_until_app by now rewrite has_dot_rev.
  apply rev_involutive.
Qed.

(** The gate in one equation: the verdict of the rules, and the stream as
    the steps it took leave it. *)
Lemma validate_image_file_rules
  (Image_open : list byte -> nat -> outcome image * nat)
  (Image_verify : image -> list byte -> nat -> outcome unit * nat)
  (file : option upload) (st : stream) :
  fst (validate_image_file Image_open Image_verify file st)
  = Returns (image_gate_rules Image_open Image_verify file) /\
  (reaches_content file = false ->
   snd (validate_image_file Image_open Image_verify file st) = st).
Proof.
  unfold validate_image_file, image_gate_rules, reaches_content,
    upload_is_false,
    try_exceptM, bindM, lift, ret.
  destruct file as [u|]; simpl; [|now split].
  destruct (truth u); simpl; [|now split].
  rewrite allowed_file_extension.
  destruct (extension_allowed (filename u)); simpl; [|now split].
  split; [|discriminate].
  unfold open, verify, inspect, bind, dimensions_verdict. simpl.
  destruct (Image_open (content u) 0) as [[img|e] p]; simpl; [|reflexivity].
  destruct (Image_verify img (content u) p) as [[[]|e] p']; simpl;
    [|reflexivity].
  destruct (size img) as [width height]. simpl.
  rewrite !Z.gtb_ltb.
  destruct ((width <? 100)%Z || (height <? 100)%Z); [reflexivity|].
  destruct ((4000 <? width)%Z || (4000 <? height)%Z); reflexivity.
Qed.

(** C3 as stated fails on the upload object Flask passes when the form
    names no file.  The object is there, so by the rules as stated it is
    not an absent upload and its filename, which has no dot, makes it
    "Invalid file type."; the code tests [not file], the object is false,
    and the answer is "No file provided". *)
Lemma C3_false_upload_counterexample :
  fst (validate_image_file sample_open sample_verify
         (Some (FileStorage (Some []) image_500)) fresh_stream)
  = Returns (false, py "No file provided") /\
  image_gate_rules_as_stated sample_open sample_verify
    (Some (FileStorage (Some []) image_500))
  = (false, py "Invalid file type.").
Proof. split; reflexivity. Qed.

(** C3, amended.  For every upload, [validate_image_file] gives the
    verdict of these six rules, applied in order and stopping at the first
    that fails: an upload that is false ([None], or an upload object whose
    truth value is false) is invalid, "No file provided"; a filename
    without a dot, or with an extension that (in any case of the letters)
    is none of png, jpg, jpeg, gif, webp, is invalid, "Invalid file
    type."; in both cases the content is not touched; content that fails
    the inspection is invalid with the error of the decoder in the
    message; a width or height under 100 is "Image too small."; a width
    or height over 4000 is "Image too large."; anything else is valid,
    "Valid image".  For [None] and for every upload object that is true,
    these are the rules as C3 states them. *)
Theorem C3_gate_applies_rules_in_order
  (Image_open : list byte -> nat -> outcome image * nat)
  (Image_verify : image -> list byte -> nat -> outcome unit * nat)
  (file : option upload) (st : stream) :
  fst (validate_image_file Image_open Image_verify file st)
  = Returns (image_gate_rules Image_open Image_verify file) /\
  (reaches_content file = false ->
   validate_image_file Image_open Image_verify file st
   = (Returns (if upload_is_false file then (false, py "No file provided")
               else (false, py "Invalid file type.")), st)) /\
  (file = None \/ file_truth file = true ->
   image_gate_rules Image_open Image_verify file
   = image_gate_rules_as_stated Image_open Image_verify file).
Proof.
  destruct (validate_image_file_rules Image_open Image_verify file st)
    as [Verdict Untouched].
  split; [exact Verdict|]. split.
  - intros H.
    rewrite (surjective_pairing (validate_image_file _ _ file st)).
    rewrite Verdict, (Untouched H). f_equal. f_equal.
    unfold image_gate_rules, reaches_content, upload_is_false in *.
    destruct file as [u|]; [|reflexivity]. simpl in *.
    destruct (truth u); [|reflexivity]. simpl in *. now rewrite H.
  - unfold image_gate_rules, image_gate_rules_as_stated, upload_is_false.
    intros [->|H]; [reflexivity|].
    destruct file as [u|]; [|discriminate]. simpl in *. now rewrite H.
Qed.

Lemma C3_gate_applies_rules_in_order_witness :
  validate_image_file sample_open sample_verify
    (Some (FileStorage (Some (py "README")) image_500)) fresh_stream
  = (Returns (false, py "Invalid file type."), fresh_stream) /\
  validate_image_file sample_open sample_verify None fresh_stream
  = (Returns (false, py "No file provided"), fresh_stream) /\
  fst (validate_image_file sample_open sample_verify
         (Some (FileStorage (Some (py "road.JPG")) image_500)) fresh_stream)
  = Returns (true, py "Valid image") /\
  fst (validate_image_file sample_open sample_verify
         (Some (FileStorage (Some (py "road.jpg")) image_50)) fresh_stream)
  = Returns (false, py "Image too small.").
Proof.
  split; [|split; [|split]].
  - apply (C3_gate_applies_rules_in_order sample_open sample_verify
             (Some (FileStorage (Some (py "README")) image_500)) fresh_stream).
    reflexivity.
  - apply (C3_gate_applies_rules_in_order sample_open sample_verify
             None fresh_stream).
    reflexivity.
  - apply (C3_gate_applies_rules_in_order sample_open sample_verify
             (Some (FileStorage (Some (py "road.JPG")) image_500)) fresh_stream).
  - apply (C3_gate_applies_rules_in_order sample_open sample_verify
             (Some (FileStorage (Some (py "road.jpg")) image_50)) fresh_stream).
Defined.

(** C8 as stated fails on an upload whose content is no image: the first
    [Image.open] raises after it has read the content, no seek follows,
    and the gate returns its invalid outcome with the cursor at
    position 5. *)
Lemma C8_cursor_counterexample :
  validate_image_file sample_open sample_verify
    (Some (FileStorage (Some (py "notes.png")) not_an_image)) fresh_stream
  = (Returns (false, py "Invalid image file: cannot identify image file"),
     {| cursor := 5; events := [Seek 0; Open 0] |}).
Proof. reflexivity. Qed.

(** C8, amended.  For every upload whose content [validate_image_file]
    inspects: when no step of the inspection raises, each opening of the
    image starts from position 0 and the read cursor is back at position 0
    when the function returns (too small, too large or valid).  When a
    step raises, no seek follows it and the cursor stays where that step
    left it: after the first opening if the opening raises, after the
    verification if the verification raises. *)
Theorem C8_cursor_after_inspection
  (Image_open : list byte -> nat -> outcome image * nat)
  (Image_verify : image -> list byte -> nat -> outcome unit * nat)
  (u : upload) (st : stream) :
  reaches_content (Some u) = true ->
  (forall dims,
      inspect Image_open Image_verify (content u) = Returns dims ->
      snd (validate_image_file Image_open Image_verify (Some u) st)
      = {| cursor := 0;
           events := events st
                     ++ inspection_events (snd (Image_open (content u) 0)) |}) /\
  (forall e,
      fst (Image_open (content u) 0) = Raises e ->
      snd (validate_image_file Image_open Image_verify (Some u) st)
      = {| cursor := snd (Image_open (content u) 0);
           events := events st ++ [Seek 0; Open 0] |}) /\
  (forall img e,
      fst (Image_open (content u) 0) = Returns img ->
      fst (Image_verify img (content u) (snd (Image_open (content u) 0)))
      = Raises e ->
      snd (validate_image_file Image_open Image_verify (Some u) st)
      = {| cursor := snd (Image_verify img (content u)
                            (snd (Image_open (content u) 0)));
           events := events st
                     ++ [Seek 0; Open 0;
                         Verify (snd (Image_open (content u) 0))] |}).
Proof.
  unfold reaches_content, upload_is_false. simpl. intros H.
  apply andb_true_iff in H as [Ht Ha]. apply negb_true_iff in Ht.
  apply negb_false_iff in Ht.
  unfold validate_image_file, try_exceptM, bindM, lift, ret, inspect.
  simpl. rewrite Ht, allowed_file_extension, Ha. simpl.
  unfold open, verify, inspection_events. simpl.
  destruct (Image_open (content u) 0) as [[img|e] p]; simpl.
  - split; [|split; [discriminate|]].
    + intros dims.
      destruct (Image_verify img (content u) p) as [[[]|e] p']; simpl;
        [|discriminate].
      intros _. destruct (size img) as [width height]. simpl.
      rewrite <- !app_assoc. simpl.
      destruct ((width <? 100)%Z || (height <? 100)%Z); [reflexivity|].
      destruct ((width >? 4000)%Z || (height >? 4000)%Z); reflexivity.
    + intros img' e [= <-].
      destruct (Image_verify img (content u) p) as [[[]|e'] p']; simpl;
        [discriminate|].
      intros _. rewrite <- !app_assoc. reflexivity.
  - split; [discriminate|]. split; [|discriminate].
    intros e' _. rewrite <- !app_assoc. reflexivity.
Qed.

Lemma C8_cursor_after_inspection_witness :
  snd (validate_image_file sample_open sample_verify
         (Some (FileStorage (Some (py "road.png")) image_500)) fresh_stream)
  = {| cursor := 0; events := inspection_events 5 |} /\
  snd (validate_image_file sample_open sample_verify
         (Some (FileStorage (Some (py "notes.png")) not_an_image)) fresh_stream)
  = {| cursor := 5; events := [Seek 0; Open 0] |} /\
  snd (validate_image_file sample_open strict_verify
         (Some (FileStorage (Some (py "cut.png")) truncated_image)) fresh_stream)
  = {| cursor := 3; events := [Seek 0; Open 0; Verify 3] |}.
Proof.
  split; [|split].
  - destruct (C8_cursor_after_inspection sample_open sample_verify
                (FileStorage (Some (py "road.png")) image_500) fresh_stream)
      as [Restored _]; [reflexivity|].
    apply (Restored (500, 500)%Z). reflexivity.
  - destruct (C8_cursor_after_inspection sample_open sample_verify
                (FileStorage (Some (py "notes.png")) not_an_image) fresh_stream)
      as [_ [Left _]]; [reflexivity|].
    apply (Left (Exception "UnidentifiedImageError"
                   (py "cannot identify image file"))).
    reflexivity.
  - destruct (C8_cursor_after_inspection sample_open strict_verify
                (FileStorage (Some (py "cut.png")) truncated_image) fresh_stream)
      as [_ [_ Left]]; [reflexivity|].
    apply (Left {| size := (500, 500)%Z |}
             (Exception "OSError" (py "image file is truncated")));
      reflexivity.
Defined.

(** C10 as stated fails on the upload object Flask passes when the form
    names no file: its filename is the empty string and the object is
    false, so the first rule answers, not the second. *)
Lemma C10_empty_filename_counterexample :
  filename (FileStorage (Some []) image_500) = Some [] /\
  validate_image_file sample_open sample_verify
    (Some (FileStorage (Some []) image_500)) fresh_stream
  = (Returns (false, py "No file provided"), fresh_stream).
Proof. split; reflexivity. Qed.

(** C10, amended.  [allowed_file] judges only what follows the last dot of
    the filename, in lower case: photo.png.txt is rejected, photo.txt.PNG
    is accepted, an empty or absent filename is rejected.  So
    [validate_image_file] returns invalid, "Invalid file type.", for an
    upload object that is true and whose filename is the empty string.
    An upload object that is false never gets to [allowed_file]: whatever
    its filename and its content, the answer is "No file provided" and
    the content is not touched; the upload objects of Flask are false
    exactly when their filename is [None] or empty, so for them an empty
    filename gives "No file provided". *)
Theorem C10_allowed_file_judges_extension :
  (forall stem ext,
      has_dot ext = false ->
      allowed_file (Some (stem ++ "."%char :: ext))
      = Returns (in_set (lower ext) ALLOWED_EXTENSIONS)) /\
  allowed_file (Some (py "photo.png.txt")) = Returns false /\
  allowed_file (Some (py "photo.txt.PNG")) = Returns true /\
  allowed_file (Some []) = Returns false /\
  allowed_file None = Returns false /\
  (forall Image_open Image_verify u st,
      truth u = true ->
      filename u = Some [] ->
      validate_image_file Image_open Image_verify (Some u) st
      = (Returns (false, py "Invalid file type."), st)) /\
  (forall Image_open Image_verify u st,
      truth u = false ->
      validate_image_file Image_open Image_verify (Some u) st
      = (Returns (false, py "No file provided"), st)) /\
  (forall name data,
      truth (FileStorage name data) = false <-> name = None \/ name = Some []) /\
  (forall Image_open Image_verify data st,
      validate_image_file Image_open Image_verify
        (Some (FileStorage (Some []) data)) st
      = (Returns (false, py "No file provided"), st)).
Proof.
  split; [|split; [|split; [|split; [|split; [|split; [|split; [|split]]]]]]];
    try reflexivity.
  - intros stem ext H. rewrite allowed_file_extension.
    unfold extension_allowed.
    rewrite extension_after_last_dot by assumption.
    rewrite has_dot_app.
    change (has_dot ("."%char :: ext)) with (true || has_dot ext).
    now rewrite orb_true_r.
  - intros Image_open Image_verify u st Ht Hn.
    unfold validate_image_file, try_exceptM, bindM, lift, ret. simpl.
    now rewrite Ht, Hn.
  - intros Image_open Image_verify u st Ht.
    unfold validate_image_file, try_exceptM, bindM, lift, ret. simpl.
    now rewrite Ht.
  - intros name data. unfold FileStorage. simpl.
    destruct name as [[|c n]|]; simpl; split; auto; try discriminate.
    intros [H|H]; discriminate.
Qed.

Lemma C10_allowed_file_judges_extension_witness :
  allowed_file (Some (py "archive.tar.webp")) = Returns true /\
  validate_image_file sample_open sample_verify
    (Some (plain_upload (Some []) image_500)) fresh_stream
  = (Returns (false, py "Invalid file type."), fresh_stream) /\
  validate_image_file sample_open sample_verify
    (Some {| truth := false; filename := Some (py "road.png");
             content := image_500 |}) fresh_stream
  = (Returns (false, py "No file provided"), fresh_stream) /\
  truth (FileStorage None image_500) = false.
Proof.
  destruct C10_allowed_file_judges_extension
    as [Last [_ [_ [_ [_ [Empty [False_upload [Flask _]]]]]]]].
  split; [|split; [|split]].
  - apply (Last (py "archive.tar") (py "webp")). reflexivity.
  - apply Empty; reflexivity.
  - apply False_upload. reflexivity.
  - apply Flask. left. reflexivity.
Defined.

(** ** No stage raises *)

(** C4 as stated fails in three ways.  On a standard output that
    encodes ASCII only, the [print] that opens [get_florence_caption]
    raises, and since it stands before the [try] the exception reaches
    the caller.  On a reply text in braces that is no literal,
    [ast.literal_eval] raises, the exception is dropped, and the stage
    returns the reply text itself, which is none of its placeholders.  On
    a mapping whose first value is a number the stage returns the number,
    not a string. *)
Lemma C4_caption_counterexample :
  get_florence_caption_with_print repr_sample literal_eval_sample
    (client_replying (PyStr (py "A pothole"))) (fun _ => true) ascii_stdout
    (py "uploads/pothole.png")
  = Raises (Exception "UnicodeEncodeError"
              (py "'ascii' codec can't encode character")) /\
  literal_eval_sample (py "{oops}")
  = Raises (Exception "ValueError" (py "malformed node or string")) /\
  get_florence_caption_with_print repr_sample literal_eval_sample
    (client_replying (PyStr (py "{oops}"))) (fun _ => true) utf8_stdout
    (py "uploads/pothole.png")
  = Returns (PyStr (py "{oops}")) /\
  is_placeholder (PyStr (py "{oops}")) = false /\
  get_florence_caption_with_print repr_sample literal_eval_sample
    (client_replying (PyStr (py "{'caption': 5}"))) (fun _ => true)
    utf8_stdout (py "uploads/pothole.png")
  = Returns (PyInt 5) /\
  is_str (PyInt 5) = false.
Proof. split; [|split; [|split; [|split; [|split]]]]; reflexivity. Qed.

Lemma caption_with_print_cases
  (repr : pyval -> str) (literal_eval : str -> outcome pyval)
  (florence_client : option (str -> outcome pyval))
  (path_exists : str -> bool) (stdout_write : str -> outcome unit)
  (image_path : str) (written : unit) :
  stdout_write (caption_announcement image_path) = Returns written ->
  get_florence_caption_with_print repr literal_eval florence_client
    path_exists stdout_write image_path
  = get_florence_caption repr literal_eval florence_client path_exists
      image_path.
Proof.
  intros H. unfold get_florence_caption_with_print. now rewrite H.
Qed.

(** C4, amended.  For every upload, [validate_image_file] returns a pair
    of a boolean and a string and does not raise, and for every caption
    and description [get_civic_score_strict3] returns a string and does
    not raise.  For every path string, once the [print] that opens
    [get_florence_caption] has written its line, the method does not
    raise and returns a value, and the value is a string on every path
    but the one where the mapping rule replaces the caption.  An
    exception of the decoder becomes the invalid outcome with the text of
    the error in its message; an exception of the captioning call becomes
    the placeholder "Caption generation failed: " followed by the text of
    the error; an exception anywhere on the scoring path becomes the
    score "000".  An exception of the parse of a caption in braces is
    dropped, and the caption is the reply text itself, not a
    placeholder. *)
Theorem C4_no_stage_raises
  (Image_open : list byte -> nat -> outcome image * nat)
  (Image_verify : image -> list byte -> nat -> outcome unit * nat)
  (repr : pyval -> str) (literal_eval : str -> outcome pyval)
  (florence_client : option (str -> outcome pyval)) (path_exists : str -> bool)
  (stdout_write : str -> outcome unit)
  (max_digits : nat) (requests_post : request -> outcome response)
  (key : option str)
  (file : option upload) (st : stream)
  (image_path caption description : str) (sent : network) :
  (exists valid message st',
      validate_image_file Image_open Image_verify file st
      = (Returns (valid, message), st')) /\
  (stdout_write (caption_announcement image_path) = Returns tt ->
   exists value,
     get_florence_caption_with_print repr literal_eval florence_client
       path_exists stdout_write image_path = Returns value /\
     (mapping_rule_fires repr literal_eval florence_client path_exists
        image_path = false ->
      is_str value = true)) /\
  (exists code sent',
      get_civic_score_strict3 max_digits requests_post key
        caption description sent = (Returns code, sent')) /\
  (forall u e,
      file = Some u ->
      reaches_content file = true ->
      inspect Image_open Image_verify (content u) = Raises e ->
      fst (validate_image_file Image_open Image_verify file st)
      = Returns (false, py "Invalid image file: " ++ exn_str e)) /\
  (forall predict e,
      stdout_write (caption_announcement image_path) = Returns tt ->
      florence_client = Some predict ->
      path_exists image_path = true ->
      predict image_path = Raises e ->
      get_florence_caption_with_print repr literal_eval florence_client
        path_exists stdout_write image_path
      = Returns (PyStr (py "Caption generation failed: " ++ exn_str e))) /\
  (forall e,
      requests_post (score_request key caption description) = Raises e \/
      (exists resp,
          requests_post (score_request key caption description) = Returns resp /\
          status_code resp = 200%Z /\
          score_of_response max_digits resp = Raises e) ->
      fst (get_civic_score_strict3 max_digits requests_post key
             caption description sent) = Returns (py "000")) /\
  (forall predict result e,
      stdout_write (caption_announcement image_path) = Returns tt ->
      florence_client = Some predict ->
      path_exists image_path = true ->
      predict image_path = Returns result ->
      in_braces (caption_text repr result) = true ->
      literal_eval (caption_text repr result) = Raises e ->
      get_florence_caption_with_print repr literal_eval florence_client
        path_exists stdout_write image_path
      = Returns (PyStr (caption_text repr result))).
Proof.
  split; [|split; [|split; [|split; [|split; [|split]]]]].
  - destruct (validate_image_file_rules Image_open Image_verify file st)
      as [Verdict _].
    destruct (validate_image_file Image_open Image_verify file st)
      as [r st'].
    simpl in Verdict. subst r.
    destruct (image_gate_rules Image_open Image_verify file)
      as [valid message].
    now exists valid, message, st'.
  - intros Hprint.
    rewrite (caption_with_print_cases _ _ _ _ _ _ Hprint).
    rewrite get_florence_caption_cases. eexists. split; [reflexivity|].
    unfold mapping_rule_fires, mapping_rule, takes_first_value.
    destruct florence_client as [predict|]; [|reflexivity].
    destruct (path_exists image_path); [|reflexivity]. simpl.
    destruct (predict image_path) as [result|e]; [|reflexivity].
    destruct (in_braces (caption_text repr result)); [|reflexivity].
    simpl.
    destruct (literal_eval (caption_text repr result)) as [v|];
      [|reflexivity].
    destruct v; try reflexivity.
    destruct items as [|[k value] items]; [reflexivity|discriminate].
  - destruct (get_civic_score_cases max_digits requests_post key
                caption description sent) as [code [E _]].
    eauto.
  - intros u e -> Hr He.
    rewrite (proj1 (validate_image_file_rules Image_open Image_verify
                      (Some u) st)).
    unfold image_gate_rules, reaches_content in *.
    apply andb_true_iff in Hr as [Hp Ha]. apply negb_true_iff in Hp.
    rewrite Hp. simpl in Ha. now rewrite Ha, He.
  - intros predict e Hprint -> Hp He.
    rewrite (caption_with_print_cases _ _ _ _ _ _ Hprint).
    rewrite get_florence_caption_cases. now rewrite Hp, He.
  - intros e H.
    unfold get_civic_score_strict3, bindM, try_exceptM, post, lift, ret.
    destruct H as [H|[resp [H [Hs He]]]]; rewrite H; [reflexivity|].
    rewrite Hs. simpl. unfold score_of_response, bind in He.
    destruct (reply_content resp) as [text|e']; [|reflexivity].
    now rewrite He.
  - intros predict result e Hprint -> Hp Hr Hb He.
    rewrite (caption_with_print_cases _ _ _ _ _ _ Hprint).
    rewrite get_florence_caption_cases. now rewrite Hp, Hr, Hb, He.
Qed.

Lemma C4_no_stage_raises_witness :
  fst (validate_image_file sample_open sample_verify
         (Some (FileStorage (Some (py "notes.png")) not_an_image)) fresh_stream)
  = Returns (false, py "Invalid image file: cannot identify image file") /\
  (exists value,
      get_florence_caption_with_print repr_sample literal_eval_sample
        (client_replying (PyList [PyInt 7])) (fun _ => true) utf8_stdout
        (py "uploads/pothole.png") = Returns value /\
      is_str value = true) /\
  get_florence_caption_with_print repr_sample literal_eval_sample
    (Some (fun _ => Raises (Exception "ConnectionError" (py "timed out"))))
    (fun _ => true) utf8_stdout (py "uploads/pothole.png")
  = Returns (PyStr (py "Caption generation failed: timed out")) /\
  fst (get_civic_score_strict3 4300
         (fun _ => Returns {| status_code := 200;
                              json := Returns (PyDict []) |})
         None (py "pothole") (py "road broken") [])
  = Returns (py "000") /\
  get_florence_caption_with_print repr_sample literal_eval_sample
    (client_replying (PyStr (py "{oops}"))) (fun _ => true) utf8_stdout
    (py "uploads/pothole.png")
  = Returns (PyStr (py "{oops}")).
Proof.
  split; [|split; [|split; [|split]]].
  - destruct (C4_no_stage_raises sample_open sample_verify
                repr_sample literal_eval_sample None (fun _ => true)
                utf8_stdout
                4300 (fun _ => Raises (Exception "E" [])) None
                (Some (FileStorage (Some (py "notes.png")) not_an_image))
                fresh_stream [] [] [] [])
      as [_ [_ [_ [Decoder _]]]].
    apply (Decoder (FileStorage (Some (py "notes.png")) not_an_image)
             (Exception "UnidentifiedImageError"
                (py "cannot identify image file")));
      reflexivity.
  - destruct (C4_no_stage_raises sample_open sample_verify
                repr_sample literal_eval_sample
                (client_replying (PyList [PyInt 7])) (fun _ => true)
                utf8_stdout
                4300 (fun _ => Raises (Exception "E" [])) None
                None fresh_stream (py "uploads/pothole.png") [] [] [])
      as [_ [Caption _]].
    destruct (Caption eq_refl) as [value [E Hstr]].
    exists value. split; [exact E|]. apply Hstr. reflexivity.
  - destruct (C4_no_stage_raises sample_open sample_verify
                repr_sample literal_eval_sample
                (Some (fun _ => Raises (Exception "ConnectionError"
                                          (py "timed out"))))
                (fun _ => true) utf8_stdout
                4300 (fun _ => Raises (Exception "E" [])) None
                None fresh_stream (py "uploads/pothole.png") [] [] [])
      as [_ [_ [_ [_ [Client _]]]]].
    apply (Client (fun _ => Raises (Exception "ConnectionError"
                                      (py "timed out")))
             (Exception "ConnectionError" (py "timed out")));
      reflexivity.
  - destruct (C4_no_stage_raises sample_open sample_verify
                repr_sample literal_eval_sample None (fun _ => true)
                utf8_stdout 4300
                (fun _ => Returns {| status_code := 200;
                                     json := Returns (PyDict []) |})
                None None fresh_stream [] (py "pothole") (py "road broken") [])
      as [_ [_ [_ [_ [_ [Score _]]]]]].
    apply (Score (KeyError (py "choices"))). right.
    exists {| status_code := 200; json := Returns (PyDict []) |}.
    repeat split.
  - destruct (C4_no_stage_raises sample_open sample_verify
                repr_sample literal_eval_sample
                (client_replying (PyStr (py "{oops}"))) (fun _ => true)
                utf8_stdout
                4300 (fun _ => Raises (Exception "E" [])) None
                None fresh_stream (py "uploads/pothole.png") [] [] [])
      as [_ [_ [_ [_ [_ [_ Parse]]]]]].
    apply (Parse (fun _ => Returns (PyStr (py "{oops}")))
             (PyStr (py "{oops}"))
             (Exception "ValueError" (py "malformed node or string")));
      reflexivity.
Defined.

(** * Further properties of the code *)

(** ** The API key *)

Lemma dict_lookup_listed (is_key : pyval -> bool)
  (items : list (pyval * pyval)) (v : pyval) :
  dict_lookup is_key items = Some v ->
  existsb (fun kv => is_key (fst kv)) items = true.
Proof.
  unfold dict_lookup. induction items as [|kv items IH]; [discriminate|].
  simpl. destruct (is_key (fst kv)); [reflexivity|exact IH].
Qed.

Lemma load_groq_key_returns
  (os_path_exists : str -> bool) (yaml_load : str -> outcome pyval)
  (environ_get : str -> option str) (config_path : str) :
  exists key,
    _load_groq_key os_path_exists yaml_load environ_get config_path
    = Returns key.
Proof.
  unfold _load_groq_key, try_except.
  match goal with
  | |- exists key, match ?body with _ => _ end = _ => destruct body
  end; eauto.
Qed.

(** X1. When the configuration file exists and its document is a mapping
    whose "groq" entry is a mapping, [_load_groq_key] returns the
    "api_key" entry of that mapping, and [None] when the entry is
    missing; the environment is not read. *)
Theorem load_groq_key_reads_config
  (os_path_exists : str -> bool) (yaml_load : str -> outcome pyval)
  (environ_get : str -> option str) (config_path : str)
  (items entries : list (pyval * pyval)) :
  os_path_exists config_path = true ->
  yaml_load config_path = Returns (PyDict items) ->
  dict_lookup (key_is_str (py "groq")) items = Some (PyDict entries) ->
  _load_groq_key os_path_exists yaml_load environ_get config_path
  = Returns match dict_lookup (key_is_str (py "api_key")) entries with
            | Some key => key
            | None => PyNone
            end.
Proof.
  intros Hfile Hload Hgroq.
  unfold _load_groq_key, lists_groq, config_api_key, py_in, subscript_key,
    method_get.
  rewrite Hfile, Hload. cbn [bind truthy].
  rewrite (dict_lookup_listed _ _ Hgroq), Hgroq.
  destruct items; [discriminate|]. reflexivity.
Qed.

Lemma load_groq_key_reads_config_witness :
  _load_groq_key a_file (yaml_of config_with_key) environ_with_key
    (py "config.yaml") = Returns (PyStr (py "file-key")) /\
  _load_groq_key a_file (yaml_of config_without_key) environ_with_key
    (py "config.yaml") = Returns PyNone.
Proof.
  split.
  - apply (@load_groq_key_reads_config a_file (yaml_of config_with_key)
             environ_with_key (py "config.yaml")
             [(PyStr (py "groq"),
               PyDict [(PyStr (py "api_key"), PyStr (py "file-key"))])]
             [(PyStr (py "api_key"), PyStr (py "file-key"))]);
      reflexivity.
  - apply (@load_groq_key_reads_config a_file (yaml_of config_without_key)
             environ_with_key (py "config.yaml")
             [(PyStr (py "groq"),
               PyDict [(PyStr (py "model"), PyStr (py "m"))])]
             [(PyStr (py "model"), PyStr (py "m"))]);
      reflexivity.
Defined.

(** X2. When there is no configuration file, or its document is empty or
    does not list "groq", [_load_groq_key] returns the value of the
    environment variable GROQ_API_KEY, and [None] when it is not set. *)
Theorem load_groq_key_reads_environment
  (os_path_exists : str -> bool) (yaml_load : str -> outcome pyval)
  (environ_get : str -> option str) (config_path : str) :
  os_path_exists config_path = false \/
  (exists config,
      yaml_load config_path = Returns config /\
      (truthy config = false \/ py_in (py "groq") config = Returns false)) ->
  _load_groq_key os_path_exists yaml_load environ_get config_path
  = Returns match environ_get (py "GROQ_API_KEY") with
            | Some value => PyStr value
            | None => PyNone
            end.
Proof.
  unfold _load_groq_key, lists_groq.
  intros [Hfile|[config [Hload Hconfig]]].
  - now rewrite Hfile.
  - destruct (os_path_exists config_path); [|reflexivity].
    rewrite Hload. cbn [bind].
    destruct Hconfig as [Hfalse|Hin].
    + now rewrite Hfalse.
    + destruct (truthy config); now rewrite ?Hin.
Qed.

Lemma load_groq_key_reads_environment_witness :
  _load_groq_key no_file no_yaml environ_with_key (py "config.yaml")
  = Returns (PyStr (py "env-key")) /\
  _load_groq_key a_file (yaml_of PyNone) no_environ (py "config.yaml")
  = Returns PyNone /\
  _load_groq_key a_file
    (yaml_of (PyDict [(PyStr (py "database"), PyStr (py "civic.db"))]))
    environ_with_key (py "config.yaml")
  = Returns (PyStr (py "env-key")).
Proof.
  split; [|split].
  - apply (@load_groq_key_reads_environment no_file no_yaml environ_with_key
             (py "config.yaml")).
    left. reflexivity.
  - apply (@load_groq_key_reads_environment a_file (yaml_of PyNone) no_environ
             (py "config.yaml")).
    right. exists PyNone. split; [reflexivity|left; reflexivity].
  - apply (@load_groq_key_reads_environment a_file
             (yaml_of (PyDict [(PyStr (py "database"), PyStr (py "civic.db"))]))
             environ_with_key (py "config.yaml")).
    right. eexists. split; [reflexivity|right; reflexivity].
Defined.

(** X3. When the configuration file exists but cannot be read or parsed,
    or its document is a number or a boolean that is true, or its "groq"
    entry is not a mapping, [_load_groq_key] returns [None]: the
    environment variable is not used in its place. *)
Theorem load_groq_key_error_gives_none
  (os_path_exists : str -> bool) (yaml_load : str -> outcome pyval)
  (environ_get : str -> option str) (config_path : str) :
  os_path_exists config_path = true ->
  (exists e, yaml_load config_path = Raises e) \/
  (exists config,
      yaml_load config_path = Returns config /\
      truthy config = true /\ is_number config = true) \/
  (exists items entry,
      yaml_load config_path = Returns (PyDict items) /\
      dict_lookup (key_is_str (py "groq")) items = Some entry /\
      is_mapping entry = false) ->
  _load_groq_key os_path_exists yaml_load environ_get config_path
  = Returns PyNone.
Proof.
  intros Hfile H.
  unfold _load_groq_key, lists_groq, config_api_key, py_in, subscript_key,
    method_get.
  rewrite Hfile.
  destruct H as [[e Hload]|[[config [Hload [Htrue Hnum]]]|
                            [items [entry [Hload [Hgroq Hentry]]]]]];
    rewrite Hload; cbn [bind try_except].
  - reflexivity.
  - rewrite Htrue. destruct config; try discriminate; reflexivity.
  - cbn [truthy]. rewrite (dict_lookup_listed _ _ Hgroq), Hgroq.
    destruct items; [discriminate|]. cbn [nonempty bind].
    destruct entry; try discriminate; reflexivity.
Qed.

Lemma load_groq_key_error_gives_none_witness :
  _load_groq_key a_file no_yaml environ_with_key (py "config.yaml")
  = Returns PyNone /\
  _load_groq_key a_file (yaml_of (PyInt 7)) environ_with_key (py "config.yaml")
  = Returns PyNone /\
  _load_groq_key a_file (yaml_of config_groq_text) environ_with_key
    (py "config.yaml")
  = Returns PyNone.
Proof.
  split; [|split].
  - apply (@load_groq_key_error_gives_none a_file no_yaml environ_with_key
             (py "config.yaml")); [reflexivity|].
    left. eexists. reflexivity.
  - apply (@load_groq_key_error_gives_none a_file (yaml_of (PyInt 7))
             environ_with_key (py "config.yaml")); [reflexivity|].
    right. left. exists (PyInt 7). repeat split.
  - apply (@load_groq_key_error_gives_none a_file (yaml_of config_groq_text)
             environ_with_key (py "config.yaml")); [reflexivity|].
    right. right.
    exists [(PyStr (py "groq"), PyStr (py "file-key"))], (PyStr (py "file-key")).
    repeat split.
Defined.

(** ** Construction *)

Lemma init_florence_client_cases
  (Client : str -> outcome (str -> outcome pyval)) :
  _init_florence_client Client
  = Returns match Client (py "GF-John/Florence-2") with
            | Returns client => Some client
            | Raises _ => None
            end.
Proof.
  unfold _init_florence_client.
  now destruct (Client (py "GF-John/Florence-2")).
Qed.

Lemma load_groq_key_no_config
  (os_path_exists : str -> bool) (yaml_load : str -> outcome pyval)
  (environ_get : str -> option str) (config_path : str) :
  os_path_exists config_path = false ->
  _load_groq_key os_path_exists yaml_load environ_get config_path
  = Returns (environ_value environ_get (py "GROQ_API_KEY")).
Proof. intros H. unfold _load_groq_key. now rewrite H. Qed.

Lemma validator_init_cases
  (os_path_exists : str -> bool) (yaml_load : str -> outcome pyval)
  (environ_get : str -> option str)
  (Client : str -> outcome (str -> outcome pyval))
  (groq_api_key : pyval) (config_path : str) :
  exists v,
    CivicValidator_init os_path_exists yaml_load environ_get Client
      groq_api_key config_path = Returns v /\
    (truthy groq_api_key = true -> self_groq_api_key v = groq_api_key) /\
    (truthy groq_api_key = false ->
     _load_groq_key os_path_exists yaml_load environ_get config_path
     = Returns (self_groq_api_key v)) /\
    self_florence_client v
    = match Client (py "GF-John/Florence-2") with
      | Returns client => Some client
      | Raises _ => None
      end.
Proof.
  unfold CivicValidator_init, py_or.
  rewrite init_florence_client_cases.
  destruct (load_groq_key_returns os_path_exists yaml_load environ_get
              config_path) as [loaded Hloaded].
  destruct (truthy groq_api_key); [|rewrite Hloaded]; cbn [bind];
    eexists; (split; [reflexivity|]);
    cbn [self_groq_api_key self_florence_client];
    (split; [|split]); try discriminate; auto.
Qed.

(** X4. [CivicValidator.__init__] always builds a validator.  A key passed
    in that is true is kept whatever the configuration and the environment
    hold; a key that is false ([None], the empty string) is replaced by
    what [_load_groq_key] returns.  The captioning client is [None]
    exactly when the import or the constructor of the client raises. *)
Theorem validator_init_key_precedence
  (os_path_exists : str -> bool) (yaml_load : str -> outcome pyval)
  (environ_get : str -> option str)
  (Client : str -> outcome (str -> outcome pyval))
  (groq_api_key : pyval) (config_path : str) :
  exists v,
    CivicValidator_init os_path_exists yaml_load environ_get Client
      groq_api_key config_path = Returns v /\
    (truthy groq_api_key = true -> self_groq_api_key v = groq_api_key) /\
    (truthy groq_api_key = false ->
     _load_groq_key os_path_exists yaml_load environ_get config_path
     = Returns (self_groq_api_key v)) /\
    (self_florence_client v = None <->
     exists e, Client (py "GF-John/Florence-2") = Raises e).
Proof.
  destruct (validator_init_cases os_path_exists yaml_load environ_get Client
              groq_api_key config_path) as [v [E [Kept [Loaded Hclient]]]].
  exists v. split; [exact E|]. split; [exact Kept|]. split; [exact Loaded|].
  rewrite Hclient.
  destruct (Client (py "GF-John/Florence-2")) as [c|e]; split;
    try discriminate; eauto.
  intros [e' He']. discriminate.
Qed.

Lemma validator_init_key_precedence_witness :
  (exists v,
      CivicValidator_init a_file (yaml_of config_with_key) environ_with_key
        no_gradio (PyStr (py "given-key")) (py "config.yaml") = Returns v /\
      self_groq_api_key v = PyStr (py "given-key") /\
      self_florence_client v = None) /\
  (exists v,
      CivicValidator_init a_file (yaml_of config_with_key) environ_with_key
        no_gradio (PyStr []) (py "config.yaml") = Returns v /\
      self_groq_api_key v = PyStr (py "file-key")).
Proof.
  split.
  - destruct (validator_init_key_precedence a_file (yaml_of config_with_key)
                environ_with_key no_gradio (PyStr (py "given-key"))
                (py "config.yaml")) as [v [E [Kept [_ Absent]]]].
    exists v. split; [exact E|]. split; [now apply Kept|].
    apply Absent. eexists. reflexivity.
  - destruct (validator_init_key_precedence a_file (yaml_of config_with_key)
                environ_with_key no_gradio (PyStr []) (py "config.yaml"))
      as [v [E [_ [Loaded _]]]].
    exists v. split; [exact E|].
    specialize (Loaded eq_refl). now injection Loaded as <-.
Defined.

(** X5. [score_strict3] builds a validator and asks for one score: it
    always returns a score code, and it sends exactly one request, whose
    authorization header is "Bearer " followed by the key the validator
    chose.  A non-empty key passed in is that key; with no key passed in,
    no configuration file and no GROQ_API_KEY in the environment, the
    request still goes out, with the header "Bearer None". *)
Theorem score_strict3_one_request
  (os_path_exists : str -> bool) (yaml_load : str -> outcome pyval)
  (environ_get : str -> option str)
  (Client : str -> outcome (str -> outcome pyval))
  (repr : pyval -> str) (max_digits : nat)
  (requests_post : request -> outcome response)
  (caption description : str) (groq_api_key : pyval) (sent : network) :
  exists v code,
    create_validator os_path_exists yaml_load environ_get Client groq_api_key
    = Returns v /\
    score_strict3 os_path_exists yaml_load environ_get Client repr max_digits
      requests_post caption description groq_api_key sent
    = (Returns code,
       sent ++ [score_request (key_text repr (self_groq_api_key v))
                  caption description]) /\
    is_score_code code = true /\
    (forall k,
        groq_api_key = PyStr k -> k <> [] ->
        authorization (score_request (key_text repr (self_groq_api_key v))
                         caption description)
        = py "Bearer " ++ k) /\
    (groq_api_key = PyNone ->
     os_path_exists default_config_path = false ->
     environ_get (py "GROQ_API_KEY") = None ->
     authorization (score_request (key_text repr (self_groq_api_key v))
                      caption description)
     = py "Bearer None").
Proof.
  destruct (validator_init_cases os_path_exists yaml_load environ_get Client
              groq_api_key default_config_path) as [v [E [Kept [Loaded _]]]].
  destruct (get_civic_score_cases max_digits requests_post
              (key_text repr (self_groq_api_key v)) caption description sent)
    as [code [Escore Hcode]].
  exists v, code. unfold create_validator, score_strict3, bindM, lift.
  rewrite E. split; [reflexivity|]. split; [exact Escore|].
  split; [exact Hcode|]. split.
  - intros k -> Hk. rewrite Kept by now destruct k. reflexivity.
  - intros -> Hfile Henv. specialize (Loaded eq_refl).
    rewrite (load_groq_key_no_config _ yaml_load environ_get _ Hfile)
      in Loaded.
    unfold environ_value in Loaded. rewrite Henv in Loaded.
    now injection Loaded as <-.
Qed.

Lemma score_strict3_one_request_witness :
  exists v code,
    create_validator no_file no_yaml no_environ no_gradio PyNone = Returns v /\
    score_strict3 no_file no_yaml no_environ no_gradio repr_sample 4300
      (fun _ => Returns (chat_completion (PyStr (py "085"))))
      (py "pothole") (py "road broken") PyNone []
    = (Returns code,
       [score_request (key_text repr_sample (self_groq_api_key v))
          (py "pothole") (py "road broken")]) /\
    authorization (score_request (key_text repr_sample (self_groq_api_key v))
                     (py "pothole") (py "road broken"))
    = py "Bearer None".
Proof.
  destruct (score_strict3_one_request no_file no_yaml no_environ no_gradio
              repr_sample 4300
              (fun _ => Returns (chat_completion (PyStr (py "085"))))
              (py "pothole") (py "road broken") PyNone [])
    as [v [code [E [Run [_ [_ NoKey]]]]]].
  exists v, code. split; [exact E|]. split; [exact Run|].
  apply NoKey; reflexivity.
Defined.

(** ** The analytics object *)

Lemma key_after_config_kept
  (os_path_exists : str -> bool) (yaml_load : str -> outcome pyval)
  (groq_api_key : pyval) (config_path : str) :
  truthy groq_api_key = true ->
  key_after_config os_path_exists yaml_load groq_api_key config_path
  = groq_api_key.
Proof.
  intros Hkey. unfold key_after_config, py_or, try_except.
  destruct (os_path_exists config_path); [|reflexivity].
  destruct (yaml_load config_path) as [config|e]; [|reflexivity].
  cbn [bind]. destruct (lists_groq config) as [[|]|e]; cbn [bind];
    try reflexivity.
  now rewrite Hkey.
Qed.

Lemma key_after_config_from_config
  (os_path_exists : str -> bool) (yaml_load : str -> outcome pyval)
  (groq_api_key : pyval) (config_path : str)
  (items entries : list (pyval * pyval)) (key : pyval) :
  truthy groq_api_key = false ->
  os_path_exists config_path = true ->
  yaml_load config_path = Returns (PyDict items) ->
  dict_lookup (key_is_str (py "groq")) items = Some (PyDict entries) ->
  dict_lookup (key_is_str (py "api_key")) entries = Some key ->
  key_after_config os_path_exists yaml_load groq_api_key config_path = key.
Proof.
  intros Hnone Hfile Hload Hgroq Hkey.
  unfold key_after_config, lists_groq, config_api_key, py_in, subscript_key,
    method_get, py_or.
  rewrite Hfile, Hload, Hnone. cbn [bind truthy].
  rewrite (dict_lookup_listed _ _ Hgroq), Hgroq.
  destruct items; [discriminate|]. cbn [nonempty bind try_except].
  now rewrite Hkey.
Qed.

(** X6. After [DepartmentAnalytics.__init__] the API key is never false:
    a key passed in that is true is kept whatever the configuration
    holds; a key passed in that is false gives way to a true "api_key" of
    the "groq" section of the configuration; and when neither gives a
    true key the key is the text "saksham".  So the constructor of the
    Groq client is always called, and the client is [None] exactly when
    that call raises. *)
Theorem analytics_init_key_never_false
  (os_path_exists : str -> bool) (yaml_load : str -> outcome pyval)
  (GroqClient : Type) (Groq : pyval -> outcome GroqClient)
  (database_path : str) (groq_api_key : pyval) (config_path : str) :
  let self := DepartmentAnalytics_init os_path_exists yaml_load Groq
                database_path groq_api_key config_path in
  truthy (analytics_groq_api_key self) = true /\
  (truthy groq_api_key = true -> analytics_groq_api_key self = groq_api_key) /\
  (forall items entries key,
      truthy groq_api_key = false ->
      os_path_exists config_path = true ->
      yaml_load config_path = Returns (PyDict items) ->
      dict_lookup (key_is_str (py "groq")) items = Some (PyDict entries) ->
      dict_lookup (key_is_str (py "api_key")) entries = Some key ->
      truthy key = true ->
      analytics_groq_api_key self = key) /\
  (truthy (key_after_config os_path_exists yaml_load groq_api_key config_path)
   = false ->
   analytics_groq_api_key self = PyStr (py "saksham")) /\
  (self_groq_client self = None <->
   exists e, Groq (analytics_groq_api_key self) = Raises e).
Proof.
  unfold DepartmentAnalytics_init. cbn zeta.
  cbn [analytics_groq_api_key self_groq_client].
  split; [|split; [|split; [|split]]].
  - destruct (truthy (key_after_config os_path_exists yaml_load groq_api_key
                        config_path)) eqn:E; [exact E|reflexivity].
  - intros Hkey. rewrite key_after_config_kept by assumption.
    now rewrite Hkey.
  - intros items entries key Hnone Hfile Hload Hgroq Hkey Htrue.
    rewrite (key_after_config_from_config os_path_exists yaml_load
               groq_api_key config_path Hnone Hfile Hload Hgroq Hkey).
    now rewrite Htrue.
  - intros E. now rewrite E.
  - destruct (truthy (key_after_config os_path_exists yaml_load groq_api_key
                        config_path)) eqn:E; cbn [negb].
    + rewrite E.
      destruct (Groq (key_after_config os_path_exists yaml_load groq_api_key
                        config_path)) as [c|e]; split; try discriminate; eauto.
      intros [e' He']. discriminate.
    + change (truthy (PyStr (py "saksham"))) with true. cbv iota.
      destruct (Groq (PyStr (py "saksham"))) as [c|e]; split;
        try discriminate; eauto.
      intros [e' He']. discriminate.
Qed.

Lemma analytics_init_key_never_false_witness :
  analytics_groq_api_key
    (DepartmentAnalytics_init a_file (yaml_of config_with_key)
       (fun key => Returns key) (py "civic_issues.db") (PyStr (py "given"))
       (py "config.yaml"))
  = PyStr (py "given") /\
  analytics_groq_api_key
    (DepartmentAnalytics_init no_file no_yaml
       (fun key => Returns key) (py "civic_issues.db") PyNone
       (py "config.yaml"))
  = PyStr (py "saksham").
Proof.
  split.
  - apply (analytics_init_key_never_false a_file (yaml_of config_with_key)
             (fun key => Returns key) (py "civic_issues.db")
             (PyStr (py "given")) (py "config.yaml")).
    reflexivity.
  - apply (analytics_init_key_never_false no_file no_yaml
             (fun key => Returns key) (py "civic_issues.db") PyNone
             (py "config.yaml")).
    reflexivity.
Defined.

(** ** More on the score parser *)

Lemma strict3score_readings (max_digits : nat) (text : str) :
  _strict3score max_digits text =
  match first_some (run_if score_and_digit) (lines_of text) with
  | Some run => clamp_format max_digits run
  | None =>
      match first_some (run_if has_digit) (lines_of text) with
      | Some run => clamp_format max_digits run
      | None => Returns (py "000")
      end
  end.
Proof.
  rewrite strict3score_selected. unfold selected_line.
  rewrite !first_some_run_if.
  destruct (find score_and_digit (lines_of text)); [reflexivity|].
  now destruct (find has_digit (lines_of text)).
Qed.

Lemma first_some_split_prefix (g : str -> option str) (w s : str) :
  g [] = None ->
  (forall c l, isspace c = true -> g (c :: l) = g l) ->
  forallb isspace w = true ->
  first_some g (split newline (w ++ s)) = first_some g (split newline s).
Proof.
  intros Hnil Hcons. induction w as [|c w IH]; [reflexivity|].
  simpl forallb. intros H. apply andb_true_iff in H as [Hc Hw].
  change ((c :: w) ++ s) with (c :: (w ++ s)).
  rewrite (@first_some_split_cons g Hnil Hcons) by assumption. now apply IH.
Qed.

Lemma readings_ignore_blanks (g : str -> option str) (w1 text w2 : str) :
  g [] = None ->
  (forall c l, isspace c = true -> g (c :: l) = g l) ->
  (forall c l, isspace c = true -> g (l ++ [c]) = g l) ->
  forallb isspace w1 = true ->
  forallb isspace w2 = true ->
  first_some g (lines_of (w1 ++ text ++ w2)) = first_some g (lines_of text).
Proof.
  intros Hnil Hcons Hsnoc H1 H2. unfold lines_of.
  rewrite first_some_split_prefix by assumption.
  now apply first_some_split_blanks.
Qed.

(** X7. Blank characters and empty lines around the reply do not change
    the score: for every reply and every pair of strings of whitespace,
    [_strict3score] gives the same outcome on the reply with the
    whitespace before and after it as on the reply alone. *)
Theorem strict3score_ignores_surrounding_blanks
  (max_digits : nat) (before text after : str) :
  forallb isspace before = true ->
  forallb isspace after = true ->
  _strict3score max_digits (before ++ text ++ after)
  = _strict3score max_digits text.
Proof.
  intros H1 H2. rewrite !strict3score_readings.
  rewrite (readings_ignore_blanks (run_if score_and_digit) before text after
             run_if_score_nil run_if_score_cons run_if_score_snoc H1 H2).
  rewrite (readings_ignore_blanks (run_if has_digit) before text after
             run_if_digit_nil run_if_digit_cons run_if_digit_snoc H1 H2).
  reflexivity.
Qed.

Lemma strict3score_ignores_surrounding_blanks_witness :
  _strict3score 4300
    (py (nl ++ "  " ++ nl)%string ++ py "Score: 85"
     ++ py (" " ++ nl ++ nl)%string)
  = _strict3score 4300 (py "Score: 85").
Proof.
  apply (strict3score_ignores_surrounding_blanks 4300
           (py (nl ++ "  " ++ nl)%string) (py "Score: 85")
           (py (" " ++ nl ++ nl)%string));
    reflexivity.
Defined.

Lemma str_eqb_eq (a b : str) : str_eqb a b = true -> a = b.
Proof.
  revert b. induction a as [|x a IH]; intros [|y b]; simpl;
    try discriminate; [reflexivity|].
  intros H. apply andb_true_iff in H as [Hxy Hab].
  apply Ascii.eqb_eq in Hxy. subst y. f_equal. now apply IH.
Qed.

Lemma isdigit_digits10 (c : ascii) : isdigit c = true -> In c digits10.
Proof.
  each_char c; vm_compute; intros H; try discriminate; tauto.
Qed.

Lemma strict3score_short (max_digits : nat) (text : str) :
  short_selection text = true ->
  _strict3score max_digits text = Returns (strict_parse_amended text).
Proof.
  unfold short_selection, strict_parse_amended.
  rewrite strict3score_selected.
  destruct (selected_line text) as [line|]; [|reflexivity].
  intros H. rewrite clamp_format_spec. unfold int_accepts. now rewrite H.
Qed.

Lemma parses_to_itself_table :
  forallb (fun a =>
    forallb (fun b =>
      forallb (fun c => parses_to_itself a b c) digits10) digits10) digits10
  = true.
Proof. vm_compute. reflexivity. Qed.

(** X8. A reply that is itself a score code, three digits of value at
    most 100 as the prompt asks for, is returned as it is. *)
Theorem strict3score_returns_score_code_unchanged
  (max_digits : nat) (code : str) :
  is_score_code code = true ->
  _strict3score max_digits code = Returns code.
Proof.
  intros Hcode.
  destruct (is_score_code_spec code Hcode) as [Hlen [Hdigits _]].
  destruct code as [|a [|b [|c [|d rest]]]]; try discriminate.
  inversion Hdigits as [|? ? Ha Hbc]; subst.
  inversion Hbc as [|? ? Hb Hc']; subst.
  inversion Hc' as [|? ? Hc _]; subst.
  apply isdigit_digits10 in Ha, Hb, Hc.
  pose proof parses_to_itself_table as T.
  apply (proj1 (forallb_forall _ _) T) in Ha.
  apply (proj1 (forallb_forall _ _) Ha) in Hb.
  apply (proj1 (forallb_forall _ _) Hb) in Hc.
  unfold parses_to_itself in Hc. rewrite Hcode in Hc. simpl implb in Hc.
  apply andb_true_iff in Hc as [Hshort Hsame].
  rewrite strict3score_short by assumption.
  f_equal. now apply str_eqb_eq.
Qed.

Lemma strict3score_returns_score_code_unchanged_witness :
  _strict3score 4300 (py "007") = Returns (py "007") /\
  _strict3score 0 (py "100") = Returns (py "100").
Proof.
  split.
  - apply (strict3score_returns_score_code_unchanged 4300 (py "007")).
    reflexivity.
  - apply (strict3score_returns_score_code_unchanged 0 (py "100")).
    reflexivity.
Defined.

(** X9. Read back as a number, the score is the selected number capped
    at 100: whenever [int] converts the number of the selected line, the
    code returned denotes the smaller of 100 and that number. *)
Theorem strict3score_value_is_capped
  (max_digits : nat) (text line : str) :
  selected_line text = Some line ->
  int_accepts max_digits (first_digit_run line) = true ->
  exists code,
    _strict3score max_digits text = Returns code /\
    int_of_digits code = N.min 100 (int_of_digits (first_digit_run line)).
Proof.
  intros Hline Hint. rewrite strict3score_selected, Hline, clamp_format_spec,
    Hint.
  eexists. split; [reflexivity|]. unfold score_code_of.
  set (n := int_of_digits (first_digit_run line)).
  destruct (@format_03d_code (Z.max 0 (Z.min 100 (Z.of_N n)))) as [_ Hv];
    [lia|].
  rewrite Hv. lia.
Qed.

Lemma strict3score_value_is_capped_witness :
  exists code,
    _strict3score 4300 (py "Score: 0250") = Returns code /\
    int_of_digits code = N.min 100 (int_of_digits (py "0250")).
Proof.
  apply (@strict3score_value_is_capped 4300 (py "Score: 0250")
           (py "Score: 0250"));
    reflexivity.
Defined.

Lemma strict3score_accepted (max_digits : nat) (text : str) :
  int_accepts_reply max_digits text = true ->
  _strict3score max_digits text = Returns (strict_parse_amended text).
Proof.
  unfold int_accepts_reply, strict_parse_amended.
  rewrite strict3score_selected.
  destruct (selected_line text) as [line|]; [|reflexivity].
  rewrite clamp_format_spec. now intros ->.
Qed.

(** X10. On a response with status 200 whose JSON body holds a string at
    [choices][0][message][content], the score returned is the strict parse
    of that string (when [int] converts its number), and one request was
    sent; what else the body holds does not matter. *)
Theorem score_is_parse_of_reply_content
  (max_digits : nat) (requests_post : request -> outcome response)
  (key : option str) (caption description : str) (sent : network)
  (resp : response) (text : str) :
  requests_post (score_request key caption description) = Returns resp ->
  status_code resp = 200%Z ->
  reply_content resp = Returns (PyStr text) ->
  int_accepts_reply max_digits text = true ->
  get_civic_score_strict3 max_digits requests_post key caption description sent
  = (Returns (strict_parse_amended text),
     sent ++ [score_request key caption description]).
Proof.
  intros Hpost Hstatus Hcontent Hint.
  unfold get_civic_score_strict3, bindM, try_exceptM, post, lift, ret.
  rewrite Hpost, Hstatus, Hcontent. cbn [Z.eqb Pos.eqb call_strict3score].
  now rewrite (strict3score_accepted _ _ Hint).
Qed.

Lemma score_is_parse_of_reply_content_witness :
  get_civic_score_strict3 4300
    (fun _ => Returns (chat_completion (PyStr (py "The relevance score: 085"))))
    None (py "pothole") (py "road broken") []
  = (Returns (strict_parse_amended (py "The relevance score: 085")),
     [score_request None (py "pothole") (py "road broken")]) /\
  strict_parse_amended (py "The relevance score: 085") = py "085".
Proof.
  split; [|reflexivity].
  apply (@score_is_parse_of_reply_content 4300
           (fun _ => Returns (chat_completion
                                (PyStr (py "The relevance score: 085"))))
           None (py "pothole") (py "road broken") []
           (chat_completion (PyStr (py "The relevance score: 085")))
           (py "The relevance score: 085"));
    reflexivity.
Defined.

(** ** More on the image gate *)

(** X11. For an upload that reaches the inspection and whose inspection
    succeeds, the gate accepts exactly the sizes with both dimensions from
    100 to 4000, the two bounds included; a dimension under 100 gives
    "Image too small." even when the other is over 4000, and "Image too
    large." is the verdict only when neither is under 100. *)
Theorem gate_accepts_exactly_bounded_sizes
  (Image_open : list byte -> nat -> outcome image * nat)
  (Image_verify : image -> list byte -> nat -> outcome unit * nat)
  (u : upload) (st : stream) (width height : Z) :
  reaches_content (Some u) = true ->
  inspect Image_open Image_verify (content u) = Returns (width, height) ->
  (fst (validate_image_file Image_open Image_verify (Some u) st)
   = Returns (true, py "Valid image") <->
   (100 <= width <= 4000 /\ 100 <= height <= 4000)%Z) /\
  ((width < 100 \/ height < 100)%Z ->
   fst (validate_image_file Image_open Image_verify (Some u) st)
   = Returns (false, py "Image too small.")) /\
  ((100 <= width /\ 100 <= height)%Z /\ (4000 < width \/ 4000 < height)%Z ->
   fst (validate_image_file Image_open Image_verify (Some u) st)
   = Returns (false, py "Image too large.")).
Proof.
  intros Hreach Hsize.
  rewrite (proj1 (validate_image_file_rules Image_open Image_verify
                    (Some u) st)).
  unfold image_gate_rules, reaches_content in *.
  apply andb_true_iff in Hreach as [Hpresent Hext].
  apply negb_true_iff in Hpresent. rewrite Hpresent.
  cbn [declared_name] in Hext. rewrite Hext, Hsize. cbn [negb].
  unfold dimensions_verdict.
  destruct (Z.ltb_spec width 100), (Z.ltb_spec height 100),
    (Z.ltb_spec 4000 width), (Z.ltb_spec 4000 height); cbn [orb];
    (split; [split; [discriminate || lia | intros; lia || reflexivity]
            |split; intros; lia || reflexivity]).
Qed.

Lemma gate_accepts_exactly_bounded_sizes_witness :
  fst (validate_image_file sample_open sample_verify
         (Some (FileStorage (Some (py "road.png")) image_500)) fresh_stream)
  = Returns (true, py "Valid image") /\
  fst (validate_image_file sample_open sample_verify
         (Some (FileStorage (Some (py "road.png")) [x49; x05; xff; x00]))
         fresh_stream)
  = Returns (false, py "Image too small.").
Proof.
  split.
  - apply (@gate_accepts_exactly_bounded_sizes sample_open sample_verify
             (FileStorage (Some (py "road.png")) image_500) fresh_stream
             500 500); [reflexivity|reflexivity|lia].
  - apply (@gate_accepts_exactly_bounded_sizes sample_open sample_verify
             (FileStorage (Some (py "road.png")) [x49; x05; xff; x00])
             fresh_stream 50 2550); [reflexivity|reflexivity|lia].
Defined.

Lemma dot_lower_char (c : ascii) :
  Ascii.eqb "."%char (lower_char c) = Ascii.eqb "."%char c /\
  Ascii.eqb (lower_char c) "."%char = Ascii.eqb c "."%char.
Proof. each_char c; split; reflexivity. Qed.

Lemma lower_char_idempotent (c : ascii) :
  lower_char (lower_char c) = lower_char c.
Proof. each_char c; reflexivity. Qed.

Lemma has_dot_lower (s : str) : has_dot (lower s) = has_dot s.
Proof.
  induction s as [|c s IH]; [reflexivity|].
  change (has_dot (lower (c :: s)))
    with (Ascii.eqb "."%char (lower_char c) || has_dot (lower s)).
  change (has_dot (c :: s)) with (Ascii.eqb "."%char c || has_dot s).
  now rewrite IH, (proj1 (dot_lower_char c)).
Qed.

Lemma take_until_lower (s : str) :
  take_until "."%char (lower s) = lower (take_until "."%char s).
Proof.
  induction s as [|c s IH]; [reflexivity|].
  change (take_until "."%char (lower (c :: s)))
    with (if Ascii.eqb (lower_char c) "."%char then []
          else lower_char c :: take_until "."%char (lower s)).
  change (take_until "."%char (c :: s))
    with (if Ascii.eqb c "."%char then [] else c :: take_until "."%char s).
  rewrite (proj2 (dot_lower_char c)), IH.
  now destruct (Ascii.eqb c "."%char).
Qed.

Lemma extension_lower (s : str) : extension (lower s) = lower (extension s).
Proof.
  unfold extension, lower.
  rewrite <- map_rev. fold (lower (rev s)). rewrite take_until_lower.
  unfold lower. now rewrite map_rev.
Qed.

Lemma lower_idempotent (s : str) : lower (lower s) = lower s.
Proof.
  unfold lower. rewrite map_map. apply map_ext.
  intros c. apply lower_char_idempotent.
Qed.

Lemma extension_allowed_lower (s : str) :
  extension_allowed (Some s)
  = has_dot (lower s) && in_set (extension (lower s)) ALLOWED_EXTENSIONS.
Proof.
  unfold extension_allowed. now rewrite has_dot_lower, extension_lower.
Qed.

(** X12. [allowed_file] does not see the case of the letters anywhere in
    the filename: two filenames with the same lower-case form get the same
    answer. *)
Theorem allowed_file_ignores_case (a b : str) :
  lower a = lower b ->
  allowed_file (Some a) = allowed_file (Some b).
Proof.
  intros H. rewrite !allowed_file_extension, !extension_allowed_lower.
  now rewrite H.
Qed.

Lemma allowed_file_ignores_case_witness :
  allowed_file (Some (py "ROAD.Jpeg")) = allowed_file (Some (py "road.jpeg")) /\
  allowed_file (Some (py "road.jpeg")) = Returns true.
Proof.
  split; [|reflexivity].
  apply (allowed_file_ignores_case (py "ROAD.Jpeg") (py "road.jpeg")).
  reflexivity.
Defined.

(** ** More on the caption requester *)



(** ** The module-level helpers *)


